(** * PySNAIL [pysnail/utils.py]: validators, augmentation and reduction

    A shallow embedding of the validation and preprocessing layer of
    [pysnail/utils.py], and the properties its specification states about it.

    - Python values are a closed sum type ([PyValue]) of the kinds of value
      the validators tell apart; [type_of] is Python's [type(target)], on
      which their [isinstance] and [np.issubdtype] probes are decided.
    - Python floats and [float64] array elements are IEEE binary64 numbers,
      that is Rocq's primitive floats: [+], [*], [<], [<=] and [==] below
      are the machine operations.
    - [warnings.warn] and [raise] are the two effects of the module.  A call
      is a computation in [py]: the warnings the module emitted, in order,
      and either the value the call returned or the exception it raised.
    - What the module takes from numpy, pandas and the operating system
      without fixing it (the rounding of the logarithm, the order of a
      summation, the contents of the file system) is a field of [numpy_lib]
      or [os_env]; every statement holds for all of them. *)

From Stdlib Require Import ZArith List String Bool Lia.
From Stdlib Require Import Floats.PrimFloat Floats.FloatOps Floats.SpecFloat
  Floats.FloatAxioms.
From stdpp Require Import base decidable countable list gmap strings.

Local Open Scope string_scope.

(** ** Python values *)

(** An index label of a pandas object: a sample or gene identifier, or a
    position. *)
Inductive label :=
| LStr (s : string)
| LInt (z : Z).

#[global] Instance label_eq_dec : EqDecision label.
Proof. solve_decision. Defined.

Definition label_to_sum (l : label) : string + Z :=
  match l with LStr s => inl s | LInt z => inr z end.

Definition label_of_sum (x : string + Z) : label :=
  match x with inl s => LStr s | inr z => LInt z end.

#[global] Instance label_countable : Countable label.
Proof.
  refine (inj_countable' label_to_sum label_of_sum _).
  intros []; reflexivity.
Defined.

(** [numpy.ndarray] of dtype float64: its shape and its elements in row-major
    order. *)
Record ndarray := { shape : list nat; data : list float }.

(** [pandas.Series]: the index and the values, position by position. *)
Record series := { s_index : list label; s_values : list float }.

(** [pandas.DataFrame]: row labels, column labels and the rows. *)
Record dataframe := {
  df_index : list label;
  df_columns : list label;
  df_values : list (list float)
}.

#[warnings="-register-all"]
Inductive PyValue :=
| PyNone
| PyBool (b : bool)
| PyInt (z : Z)
| PyFloat (f : float)
| PyComplex (re im : float)
| PyStr (s : string)
| PyList (l : list PyValue)
| NpInt64 (z : Z)
| NpFloat64 (f : float)
| PyNdarray (a : ndarray)
| PySeries (s : series)
| PyDataFrame (d : dataframe).

(** [type(target)] *)
Inductive pytype :=
| TNoneType | TBool | TInt | TFloat | TComplex | TStr | TList
| TNpInt64 | TNpFloat64 | TNdarray | TSeries | TDataFrame.

Definition type_of (v : PyValue) : pytype :=
  match v with
  | PyNone => TNoneType
  | PyBool _ => TBool
  | PyInt _ => TInt
  | PyFloat _ => TFloat
  | PyComplex _ _ => TComplex
  | PyStr _ => TStr
  | PyList _ => TList
  | NpInt64 _ => TNpInt64
  | NpFloat64 _ => TNpFloat64
  | PyNdarray _ => TNdarray
  | PySeries _ => TSeries
  | PyDataFrame _ => TDataFrame
  end.

(** [dtype.__name__] *)
Definition type_name (t : pytype) : string :=
  match t with
  | TNoneType => "NoneType"
  | TBool => "bool"
  | TInt => "int"
  | TFloat => "float"
  | TComplex => "complex"
  | TStr => "str"
  | TList => "list"
  | TNpInt64 => "int64"
  | TNpFloat64 => "float64"
  | TNdarray => "ndarray"
  | TSeries => "Series"
  | TDataFrame => "DataFrame"
  end.

(** [isinstance(target, int)]: [bool] is a subclass of [int]; a numpy integer
    scalar is not an [int]. *)
Definition isinstance_int (v : PyValue) : bool :=
  match type_of v with TInt | TBool => true | _ => false end.

(** [isinstance(target, float)]: [numpy.float64] is a subclass of [float]. *)
Definition isinstance_float (v : PyValue) : bool :=
  match type_of v with TFloat | TNpFloat64 => true | _ => false end.

(** The abstract scalar types of numpy the module probes for. *)
Inductive np_abstract := np_integer | np_inexact.

(** [np.issubdtype(dtype, kind)]: a Python type is first sent to the scalar
    type of [np.dtype(dtype)] ([int] to a signed integer, [bool] to [bool_],
    [float] to [float64], [complex] to [complex128], [str] to [str_], any
    other class to [object_]), then compared in numpy's scalar hierarchy. *)
Definition np_issubdtype (t : pytype) (k : np_abstract) : bool :=
  match k, t with
  | np_integer, (TInt | TNpInt64) => true
  | np_inexact, (TFloat | TComplex | TNpFloat64) => true
  | _, _ => false
  end.

(** ** Warnings and exceptions *)

(** The messages of the module, one constructor per f-string, holding the
    values the f-string interpolates. *)
Inductive message :=
| MsgCentered (name : string)
    (* f'{name} has already been centered.' *)
| MsgLogTransformed (name : string)
    (* f'{name} might already been log-transformed. Ignore it.' *)
| MsgNotInteger (name : string) (target : PyValue)
    (* f'{name} should be an integer, got value:{target}' *)
| MsgNotNumber (name : string) (type_name : string)
    (* f'{name} should be an integer or float number, got type: {dtype.__name__}' *)
| MsgNotPositive (name : string) (x : PyValue)
    (* f'{name} should be an positive integer, got value:{x}' *)
| MsgWrongDim (name : string) (ndim : nat)
    (* f'{name} should have dim = 1, got dim = {target.ndim}' *)
| MsgNotArray (name : string) (type_name : string)
    (* f'{name} should be an instance of list or numpy.ndarray, got type: {...}.' *)
| MsgNotExist (what : PyValue)
    (* f'{path} does not exist.' and f'{target} does not exist.' *)
| MsgNotStr (name : string) (type_name : string)
    (* f'{name} should be an instance of str, got {type(target).__name__}.' *)
| MsgNotSeriesDataFrame (name : string)
    (* f'{name} should be an instance of pd.core.series.Series or pd.core.frame.DataFrame.' *)
| MsgIndexMismatch (target_name source_name : string)
    (* f"{target_name} and {source_name} don't share the same index." *)
| MsgIgnoreIt (m : message)
    (* f'{message} Ignore it.' *)
| MsgBuiltin (text : string).
    (* the message of an exception raised by the interpreter or by numpy *)

Inductive exception :=
| TypeError | ValueError | FileNotFoundError | AttributeError | IndexError
| ZeroDivisionError.

Inductive outcome (A : Type) :=
| Return (a : A)
| Raise (e : exception) (m : message).
Arguments Return {A} a.
Arguments Raise {A} e m.

(** A call: the [RuntimeWarning]s it emitted, oldest first, and how it ended. *)
Definition py (A : Type) : Type := list message * outcome A.

Definition py_ret {A} (a : A) : py A := ([], Return a).

Definition py_bind {A B} (c : py A) (k : A -> py B) : py B :=
  match c with
  | (w, Return a) => let (w', r) := k a in ((w ++ w')%list, r)
  | (w, Raise e m) => (w, Raise e m)
  end.

Definition warnings_warn (m : message) : py unit := ([m], Return tt).

Definition raise {A} (e : exception) (m : message) : py A := ([], Raise e m).

(** [if flag: statement] *)
Definition when (flag : bool) (c : py unit) : py unit :=
  if flag then c else py_ret tt.

Notation "x <~ c ;; k" := (py_bind c (fun x => k))
  (at level 100, c at next level, right associativity).
Notation "c >> k" := (py_bind c (fun _ => k))
  (at level 100, right associativity).

Definition outcome_of {A} (c : py A) : outcome A := snd c.

(** [bool(v)], the test of an [if] and of [and]. *)
Definition truthy (v : PyValue) : py bool :=
  match v with
  | PyNone => py_ret false
  | PyBool b => py_ret b
  | PyInt z | NpInt64 z => py_ret (negb (z =? 0)%Z)
  | PyFloat f | NpFloat64 f => py_ret (negb (f =? 0)%float)
  | PyComplex re im => py_ret (negb ((re =? 0)%float && (im =? 0)%float))
  | PyStr s => py_ret (negb (String.eqb s EmptyString))
  | PyList l => py_ret (negb (Nat.eqb (length l) 0))
  | PyNdarray a =>
      match data a with
      | [] => py_ret false
      | [x] => py_ret (negb (x =? 0)%float)
      | _ => raise ValueError
               (MsgBuiltin "The truth value of an array with more than one element is ambiguous.")
      end
  | PySeries _ | PyDataFrame _ =>
      raise ValueError (MsgBuiltin "The truth value of a Series is ambiguous.")
  end.

(** ** What the module uses of numpy *)

(** The parts of numpy whose results the module does not fix:
    - [libm_log2]: the C library's [log2] at a positive finite argument (its
      last bit depends on the platform);
    - [np_mean]: [np.mean] of a flat float64 array (the order of the
      summation, hence the last bits, depends on the numpy build);
    - [np_array_ndim]: [np.array(l).ndim] for a Python list [l], or the
      exception [np.array] raises on it. *)
Record numpy_lib := {
  libm_log2 : float -> float;
  np_mean : list float -> float;
  np_array_ndim : list PyValue -> outcome nat
}.

(** numpy's maximum and minimum of two float64 numbers: a NaN propagates. *)
Definition np_maximum (a b : float) : float :=
  if (b <=? a)%float || is_nan a then a else b.

Definition np_minimum (a b : float) : float :=
  if (a <=? b)%float || is_nan a then a else b.

(** [np.max(target)] and [np.min(target)] of a flat array: a reduction
    without identity, which numpy refuses on an empty array. *)
Definition np_max (target : list float) : py float :=
  match target with
  | [] => raise ValueError
            (MsgBuiltin "zero-size array to reduction operation maximum which has no identity")
  | x :: xs => py_ret (fold_left np_maximum xs x)
  end.

Definition np_min (target : list float) : py float :=
  match target with
  | [] => raise ValueError
            (MsgBuiltin "zero-size array to reduction operation minimum which has no identity")
  | x :: xs => py_ret (fold_left np_minimum xs x)
  end.

(** [np.isclose(a, b)] with the default [rtol=1e-05], [atol=1e-08] and
    [equal_nan=False]: [|a - b| <= atol + rtol * |b|] between finite numbers,
    [a == b] otherwise. *)
Definition rtol : float := 0x1.4f8b588e368f1p-17%float.
Definition atol : float := 0x1.5798ee2308c3ap-27%float.

Definition np_isclose (a b : float) : bool :=
  if is_finite a && is_finite b
  then (abs (a - b) <=? atol + rtol * abs b)%float
  else (a =? b)%float.

(** [np.log2] of one float64 number: NaN at a NaN and below zero, minus
    infinity at zero, infinity at infinity, the C library's value elsewhere. *)
Definition np_log2 (np : numpy_lib) (x : float) : float :=
  if is_nan x then nan
  else if (x <? 0)%float then nan
  else if (x =? 0)%float then neg_infinity
  else if (x =? infinity)%float then infinity
  else libm_log2 np x.

(** [np.concatenate([a, b])] of two flat arrays. *)
Definition np_concatenate (a b : list float) : ndarray :=
  {| shape := [length a + length b]; data := a ++ b |}.

(** [-1 * target], element by element. *)
Definition negate (target : list float) : list float :=
  map (fun x => (-1 * x)%float) target.

(** [np.log2(target + 1)], element by element. *)
Definition log2_plus_one (np : numpy_lib) (target : list float) : list float :=
  map (fun x => np_log2 np (x + 1)%float) target.

(** ** [augment_data] (utils.py, lines 15-48) *)

(** The test of line 42, [np.max(target) < 100 and np.min(target) < 0]:
    [np.min] is evaluated only when the first comparison holds. *)
Definition already_log_transformed (target : list float) : py bool :=
  mx <~ np_max target ;;
  if (mx <? 100)%float
  then mn <~ np_min target ;; py_ret (mn <? 0)%float
  else py_ret false.

Definition augment_data (np : numpy_lib) (target : ndarray) (name : string)
    (warn : bool) : py ndarray :=
  (* target = target.reshape(-1) *)
  let target := data target in
  (if np_isclose (np_mean np target) 0
   then when warn (warnings_warn (MsgCentered name))
   else py_ret tt) >>
  skip <~ already_log_transformed target ;;
  target <~ (if skip : bool
             then when warn (warnings_warn (MsgLogTransformed name)) >> py_ret target
             else py_ret (log2_plus_one np target)) ;;
  py_ret (np_concatenate target (negate target)).

(** ** [is_integer] (lines 50-98) *)

(** [float.is_integer()]: the number is finite and equal to its floor.  A
    finite binary64 number is [m * 2^e] up to sign; it is its own floor when
    [e] is not negative or [2^(-e)] divides [m]. *)
Definition float_is_integer (f : float) : bool :=
  match Prim2SF f with
  | S754_zero _ => true
  | S754_finite _ m e => (0 <=? e)%Z || (Z.pos m mod 2 ^ (- e) =? 0)%Z
  | S754_infinity _ | S754_nan => false
  end.

(** [target.is_integer()]: a method of [float] (and so of [numpy.float64]);
    [complex] has none. *)
Definition method_is_integer (target : PyValue) : py bool :=
  match target with
  | PyFloat f | NpFloat64 f => py_ret (float_is_integer f)
  | _ => raise AttributeError
           (MsgBuiltin (type_name (type_of target) ++ " object has no attribute is_integer"))
  end.

Definition is_integer (target : PyValue) (name : string) (warn error : bool)
    : py PyValue :=
  let dtype := type_of target in
  if isinstance_int target || np_issubdtype dtype np_integer then
    py_ret (PyBool true)
  else if isinstance_float target || np_issubdtype dtype np_inexact then
    integral <~ method_is_integer target ;;
    if integral : bool then py_ret (PyBool true)
    else
      let message := MsgNotInteger name target in
      when warn (warnings_warn message) >>
      when error (raise ValueError message) >>
      py_ret (PyBool false)
  else
    let message := MsgNotNumber name (type_name dtype) in
    when warn (warnings_warn message) >>
    when error (raise TypeError message) >>
    py_ret (PyBool false).

(** ** [is_positive_integer] (lines 100-136) *)

(** [x > 0] for the numbers [is_integer] accepts; Python refuses to order
    anything else against an [int]. *)
Definition greater_than_zero (x : PyValue) : py bool :=
  match x with
  | PyBool b => py_ret b
  | PyInt z | NpInt64 z => py_ret (0 <? z)%Z
  | PyFloat f | NpFloat64 f => py_ret (0 <? f)%float
  | _ => raise TypeError (MsgBuiltin "> not supported between these instances")
  end.

Definition is_positive_integer (x : PyValue) (name : string) (warn error : bool)
    : py PyValue :=
  ok <~ is_integer x name warn error ;;
  ok <~ truthy ok ;;
  if ok : bool then
    positive <~ greater_than_zero x ;;
    if positive : bool then py_ret (PyBool true)
    else
      let message := MsgNotPositive name x in
      when warn (warnings_warn message) >>
      when error (raise ValueError message) >>
      py_ret (PyBool false)
  else py_ret (PyBool false).

(** ** [is_1darray] (lines 138-189) *)

(** [target.ndim] after the coercion of lines 168-169. *)
Definition ndim_of (np : numpy_lib) (target : PyValue) : py nat :=
  match target with
  | PyList l => ([], np_array_ndim np l)
  | PyNdarray a => py_ret (length (shape a))
  | _ => raise AttributeError (MsgBuiltin "object has no attribute ndim")
  end.

Definition is_1darray (np : numpy_lib) (target : PyValue) (name : string)
    (warn error : bool) : py PyValue :=
  (* target = deepcopy(target): values are immutable here *)
  match type_of target with
  | TSeries => py_ret (PyBool true)
  | TList | TNdarray =>
      ndim <~ ndim_of np target ;;
      if Nat.eqb ndim 1 then py_ret (PyBool true)
      else
        let message := MsgWrongDim name ndim in
        when warn (warnings_warn message) >>
        when error (raise ValueError message) >>
        py_ret (PyBool false)
  | _ =>
      let message := MsgNotArray name (type_name (type_of target)) in
      when warn (warnings_warn message) >>
      when error (raise TypeError message) >>
      py_ret (PyBool false)
  end.

(** ** [is_file] (lines 191-233) *)

(** The file system as [os.path] and pandas see it: [realpath] resolves a
    path, [isfile] tells whether a resolved path is an existing regular file,
    and [pd_read_csv] is [pd.read_csv(path, sep='\t', index_col=0,
    header=None, squeeze=True)]. *)
Record os_env := {
  realpath : string -> string;
  isfile : string -> bool;
  pd_read_csv : string -> py PyValue
}.

Definition is_file (os : os_env) (target : PyValue) (name : string)
    (warn error : bool) : py PyValue :=
  match target with
  | PyStr target =>
      let path := realpath os target in
      if isfile os path then py_ret (PyBool true)
      else
        let message := MsgNotExist (PyStr path) in
        if warn then
          warnings_warn (MsgIgnoreIt message) >>
          py_ret PyNone (* the function ends without a return statement *)
        else raise TypeError message
  | _ =>
      let message := MsgNotStr name (type_name (type_of target)) in
      when warn (warnings_warn (MsgIgnoreIt message)) >>
      when error (raise TypeError message) >>
      py_ret (PyBool false)
  end.

(** ** [is_series_dataframe] (lines 235-273) *)

Definition isinstance_series_dataframe (v : PyValue) : bool :=
  match type_of v with TSeries | TDataFrame => true | _ => false end.

Definition is_series_dataframe (target : PyValue) (name : string)
    (warn error : bool) : py PyValue :=
  if negb (isinstance_series_dataframe target) then
    let message := MsgNotSeriesDataFrame name in
    when warn (warnings_warn (MsgIgnoreIt message)) >>
    when error (raise TypeError message) >>
    py_ret (PyBool false)
  else py_ret (PyBool true).

(** ** [have_same_index] (lines 275-324) *)

(** [target.index]: the row labels of a series or of a dataframe. *)
Definition index_of (target : PyValue) : py (list label) :=
  match target with
  | PySeries s => py_ret (s_index s)
  | PyDataFrame d => py_ret (df_index d)
  | _ => raise AttributeError (MsgBuiltin "object has no attribute index")
  end.

(** [set(index)] *)
Definition label_set (index : list label) : gset label := list_to_set index.

(** [a and b] on validator results: [b] is evaluated only when [a] is true,
    and the value of the conjunction is the operand that decided it. *)
Definition py_and (a : py PyValue) (b : py PyValue) : py PyValue :=
  x <~ a ;;
  t <~ truthy x ;;
  if t : bool then b else py_ret x.

Definition have_same_index (target source : PyValue)
    (target_name source_name : string) (warn error : bool) : py PyValue :=
  both <~ py_and (is_series_dataframe target target_name warn error)
                 (is_series_dataframe source source_name warn error) ;;
  both <~ truthy both ;;
  if both : bool then
    ti <~ index_of target ;;
    si <~ index_of source ;;
    if bool_decide (label_set ti = label_set si) then py_ret (PyBool true)
    else
      let message := MsgIndexMismatch target_name source_name in
      when warn (warnings_warn (MsgIgnoreIt message)) >>
      when error (raise ValueError message) >>
      py_ret PyNone (* the branch ends without a return statement *)
  else py_ret (PyBool false).

(** ** [read_series] (lines 326-365) *)

(** [os.path.realpath(target)] of line 353, reached with a string only. *)
Definition realpath_of (os : os_env) (target : PyValue) : py string :=
  match target with
  | PyStr p => py_ret (realpath os p)
  | _ => raise TypeError (MsgBuiltin "expected str, bytes or os.PathLike object")
  end.

Definition read_series (os : os_env) (target : PyValue) (warn error : bool)
    : py PyValue :=
  match type_of target with
  | TSeries => py_ret target
  | _ =>
      (* is_file(target): the name and both flags take their defaults *)
      found <~ is_file os target "variable" false false ;;
      found <~ truthy found ;;
      if found : bool then
        path <~ realpath_of os target ;;
        pd_read_csv os path
      else
        let message := MsgNotExist target in
        when warn (warnings_warn (MsgIgnoreIt message)) >>
        when error (raise FileNotFoundError message) >>
        py_ret PyNone
  end.

(** ** [reduce_data] (lines 367-382) *)

(** [t[i]] on a tuple: a negative index counts from the end. *)
Definition tuple_position (len : nat) (i : Z) : option nat :=
  if (0 <=? i)%Z && (i <? Z.of_nat len)%Z then Some (Z.to_nat i)
  else if (- Z.of_nat len <=? i)%Z && (i <? 0)%Z then Some (Z.to_nat (Z.of_nat len + i))
  else None.

Definition tuple_getitem (t : list nat) (i : Z) : py nat :=
  match tuple_position (length t) i with
  | Some k => py_ret (nth k t 0)
  | None => raise IndexError (MsgBuiltin "tuple index out of range")
  end.

Definition product (l : list nat) : nat := fold_right Nat.mul 1 l.

(** The elements of positions [lo, hi) of each of [outer] consecutive blocks
    of [blk] elements. *)
Fixpoint slice_blocks (outer blk lo hi : nat) (d : list float) : list float :=
  match outer with
  | O => []
  | S outer' =>
      firstn (hi - lo) (skipn lo (firstn blk d))
        ++ slice_blocks outer' blk lo hi (skipn blk d)
  end.

(** [ary[..., st:en, ...]], the slice along axis [k] of a row-major array. *)
Definition slice_axis (ary : ndarray) (k st en : nat) : ndarray :=
  let outer := product (firstn k (shape ary)) in
  let n := nth k (shape ary) 0 in
  let inner := product (skipn (S k) (shape ary)) in
  {| shape := firstn k (shape ary) ++ (en - st) :: skipn (S k) (shape ary);
     data := slice_blocks outer (n * inner) (st * inner) (en * inner) (data ary) |}.

(** The section sizes and the slices [np.array_split] cuts. *)
Definition section_sizes (ntotal nsections : nat) : list nat :=
  let neach := ntotal / nsections in
  let extras := ntotal mod nsections in
  repeat (S neach) extras ++ repeat neach (nsections - extras).

Fixpoint div_points (st : nat) (sizes : list nat) : list (nat * nat) :=
  match sizes with
  | [] => []
  | s :: sizes' => (st, st + s) :: div_points (st + s) sizes'
  end.

Definition np_array_split (ary : ndarray) (nsections : nat) (axis : Z)
    : py (list ndarray) :=
  ntotal <~ tuple_getitem (shape ary) axis ;;
  if Nat.eqb nsections 0 then
    raise ValueError (MsgBuiltin "number sections must be larger than 0.")
  else
    match tuple_position (length (shape ary)) axis with
    | Some k =>
        py_ret (map (fun se => slice_axis ary k (fst se) (snd se))
                    (div_points 0 (section_sizes ntotal nsections)))
    | None => raise IndexError (MsgBuiltin "tuple index out of range")
    end.

(** [np.split(ary, sections, axis)] with an integer [sections]: the length
    along [axis] must be a multiple of it. *)
Definition np_split (ary : ndarray) (sections : nat) (axis : Z)
    : py (list ndarray) :=
  n <~ tuple_getitem (shape ary) axis ;;
  if Nat.eqb sections 0 then
    raise ZeroDivisionError (MsgBuiltin "integer division or modulo by zero")
  else if negb (Nat.eqb (n mod sections) 0) then
    raise ValueError (MsgBuiltin "array split does not result in an equal division")
  else np_array_split ary sections axis.

(** [l[0]] *)
Definition first_item (l : list ndarray) : py ndarray :=
  match l with
  | x :: _ => py_ret x
  | [] => raise IndexError (MsgBuiltin "list index out of range")
  end.

Definition reduce_data (target : ndarray) (axis : Z) : py ndarray :=
  parts <~ np_split target 2 axis ;;
  first_item parts.

(** ** [likelihood_ratio_test] (lines 384-407) *)

(** The statistic of line 406 on binary64 numbers. *)
Definition likelihood_ratio (log_likelihood_simplified log_likelihood_complex : float)
    : float :=
  (2 * (log_likelihood_complex - log_likelihood_simplified))%float.

(** [chi2_sf] is [scipy.stats.chi2.sf]. *)
Definition likelihood_ratio_test (chi2_sf : float -> Z -> float)
    (log_likelihood_simplified log_likelihood_complex : float) (df : Z) : float :=
  chi2_sf (likelihood_ratio log_likelihood_simplified log_likelihood_complex) df.

(** ** [get_random_state] (lines 409-424) *)

(** The generator a call builds, by the constructor that built it: the stream
    it draws is numpy's and is not modelled. *)
Inductive generator :=
| RandomState (seed : Z)  (* np.random.RandomState(seed) *)
| default_rng.            (* np.random.default_rng(), seeded by the system *)

(** [operator.index(seed)] of an [int]: [True] is 1 and [False] is 0. *)
Definition int_of (v : PyValue) : Z :=
  match v with
  | PyInt z => z
  | PyBool b => Z.b2z b
  | _ => 0%Z
  end.

(** [np.random.RandomState(seed)] with an integer seed: the seed of the
    Mersenne twister is a 32-bit word. *)
Definition np_random_RandomState (seed : Z) : py generator :=
  if (0 <=? seed)%Z && (seed <? 2 ^ 32)%Z then py_ret (RandomState seed)
  else raise ValueError (MsgBuiltin "Seed must be between 0 and 2**32 - 1").

Definition get_random_state (seed : PyValue) : py generator :=
  if isinstance_int seed then np_random_RandomState (int_of seed)
  else py_ret default_rng.

(** ** The comparisons the properties are stated with *)

(** [x == y] on two flat arrays of the same length, element by element, and
    [np.all]. *)
Definition np_equal (x y : list float) : list bool :=
  map (fun p => (fst p =? snd p)%float) (combine x y).

Definition np_all (b : list bool) : bool := forallb id b.

(** NaN among the numbers the specification of binary64 computes with. *)
Definition sf_is_nan (s : spec_float) : bool :=
  match s with S754_nan => true | _ => false end.

(** The fractional part of a float is zero, that is its value is an integer:
    the float is a zero, or it is finite, [m * 2^e] up to sign, and
    [m * 2^e = k] for an integer [k] (written without a negative power).  An
    infinity and a NaN have no value. *)
Definition fraction_is_zero (f : float) : Prop :=
  match Prim2SF f with
  | S754_zero _ => True
  | S754_finite _ m e =>
      exists k : Z, (Z.pos m * 2 ^ Z.max 0 e = k * 2 ^ Z.max 0 (- e))%Z
  | S754_infinity _ | S754_nan => False
  end.

(** The number a Python or numpy integer holds, and the float a Python or
    numpy float holds. *)
Definition int_value (v : PyValue) : option Z :=
  match v with PyInt z | NpInt64 z => Some z | _ => None end.

Definition float_value (v : PyValue) : option float :=
  match v with PyFloat f | NpFloat64 f => Some f | _ => None end.

(** Not a number of any kind: what [is_integer] calls a wrong type. *)
Definition non_numeric (v : PyValue) : bool :=
  match type_of v with
  | TNoneType | TStr | TList | TNdarray | TSeries | TDataFrame => true
  | _ => false
  end.

(** [reduce_data(augment_data(target))] *)
Definition reduce_augment (np : numpy_lib) (target : ndarray) (name : string)
    (warn : bool) : py ndarray :=
  augmented <~ augment_data np target name warn ;;
  reduce_data augmented 0.

(** How a failed check ends under the policy: the warning [w] when [warn] is
    set, then the exception [e] with message [m] when [error] is set, and
    the value [otherwise] when it is not. *)
Definition report (warn error : bool) (w m : message) (e : exception)
    (otherwise : PyValue) : py PyValue :=
  (if warn then [w] else [], if error then Raise e m else Return otherwise).

(** The ways a validator call can end: it passes, it reports a failure under
    the policy and returns [False] or [None], or an operation it relies on
    raises. *)
Inductive verdict (warn error : bool) : py PyValue -> Prop :=
| verdict_pass : verdict warn error (py_ret (PyBool true))
| verdict_fail (w m : message) (e : exception) :
    verdict warn error (report warn error w m e (PyBool false))
| verdict_fail_none (w m : message) (e : exception) :
    verdict warn error (report warn error w m e PyNone)
| verdict_raise (e : exception) (m : message) :
    verdict warn error ([], Raise e m).

(** A call of one of the six validators, [have_same_index] with the name of
    its second argument. *)
Inductive check :=
| CheckInteger (target : PyValue)
| CheckPositiveInteger (x : PyValue)
| Check1darray (target : PyValue)
| CheckFile (target : PyValue)
| CheckSeriesDataframe (target : PyValue)
| CheckSameIndex (target source : PyValue) (source_name : string).

Definition run_check (np : numpy_lib) (os : os_env) (c : check) (name : string)
    (warn error : bool) : py PyValue :=
  match c with
  | CheckInteger target => is_integer target name warn error
  | CheckPositiveInteger x => is_positive_integer x name warn error
  | Check1darray target => is_1darray np target name warn error
  | CheckFile target => is_file os target name warn error
  | CheckSeriesDataframe target => is_series_dataframe target name warn error
  | CheckSameIndex target source source_name =>
      have_same_index target source name source_name warn error
  end.

(** The elements of an array are as many as its shape says. *)
Definition wf_ndarray (a : ndarray) : Prop :=
  length (data a) = product (shape a).

(** ** A platform to run the definitions on *)

Module Sample.

(** A file system given by the parsed contents of its regular files, paths
    being resolved already. *)
Definition disk (files : gmap string PyValue) : os_env :=
  {| realpath := fun p => p;
     isfile := fun p => bool_decide (is_Some (files !! p));
     pd_read_csv := fun p =>
       match files !! p with
       | Some v => py_ret v
       | None => raise FileNotFoundError (MsgNotExist (PyStr p))
       end |}.

(** A numpy whose logarithm is exact on the powers of two and linear between
    them, whose mean adds from left to right, and which sees a list of
    numbers as one-dimensional and a list of lists as two-dimensional. *)
Definition coarse_log2 (x : float) : float :=
  let (m, e) := frshiftexp x in
  (of_uint63 e - 2102 + (2 * m - 1))%float.

Definition count (l : list float) : float :=
  fold_left (fun n _ => (n + 1)%float) l 0%float.

Definition left_mean (l : list float) : float :=
  (fold_left add l 0 / count l)%float.

Definition list_ndim (l : list PyValue) : outcome nat :=
  match l with
  | PyList _ :: _ => Return 2
  | _ => Return 1
  end.

Definition numpy : numpy_lib :=
  {| libm_log2 := coarse_log2; np_mean := left_mean; np_array_ndim := list_ndim |}.

End Sample.

Definition vector (d : list float) : ndarray :=
  {| shape := [length d]; data := d |}.

Definition labelled (names : list string) : PyValue :=
  PySeries {| s_index := map LStr names; s_values := map (fun _ => 1%float) names |}.

(** * Properties *)

(** ** The reporting policy *)

(** The three statements that end a failed check: [if warn: warnings.warn],
    [if error: raise], [return False]. *)
Lemma report_failure (warn error : bool) (w m : message) (e : exception) :
  (when warn (warnings_warn w) >> when error (raise e m) >> py_ret (PyBool false))
  = (if warn then [w] else [], if error then Raise e m else Return (PyBool false)).
Proof. destruct warn, error; reflexivity. Qed.

Lemma report_failure_none (warn error : bool) (w m : message) (e : exception) :
  (when warn (warnings_warn w) >> when error (raise e m) >> py_ret PyNone)
  = (if warn then [w] else [], if error then Raise e m else Return PyNone).
Proof. destruct warn, error; reflexivity. Qed.

Lemma py_bind_ret {A B} (a : A) (k : A -> py B) : (x <~ py_ret a ;; k x) = k a.
Proof. unfold py_bind, py_ret. destruct (k a); reflexivity. Qed.

Lemma py_bind_raise {A B} (e : exception) (m : message) (k : A -> py B) :
  (x <~ raise e m ;; k x) = raise e m.
Proof. reflexivity. Qed.

Lemma py_ret_bind {A} (c : py A) : (x <~ c ;; py_ret x) = c.
Proof.
  destruct c as [w [a | e m]]; cbn; [rewrite app_nil_r |]; reflexivity.
Qed.

Lemma py_bind_assoc {A B C} (c : py A) (k : A -> py B) (h : B -> py C) :
  (y <~ (x <~ c ;; k x) ;; h y) = (x <~ c ;; y <~ k x ;; h y).
Proof.
  destruct c as [w [a | e m]]; cbn; [| reflexivity].
  destruct (k a) as [w' [b | e m]]; cbn; [| reflexivity].
  destruct (h b) as [w'' r]. rewrite app_assoc. reflexivity.
Qed.

(** Runs the calls whose result is known. *)
Ltac py_run := repeat first [rewrite py_bind_ret | progress cbn [truthy]].

(** ** [is_file] and [read_series] on a missing file *)

Section MissingFile.
Variable os : os_env.
Variable path : string.
Hypothesis missing : isfile os (realpath os path) = false.

Lemma is_file_missing_warn (name : string) (error : bool) :
  is_file os (PyStr path) name true error
  = ([MsgIgnoreIt (MsgNotExist (PyStr (realpath os path)))], Return PyNone).
Proof. unfold is_file. rewrite missing. reflexivity. Qed.

Lemma is_file_missing_raise (name : string) (error : bool) :
  is_file os (PyStr path) name false error
  = ([], Raise TypeError (MsgNotExist (PyStr (realpath os path)))).
Proof. unfold is_file. rewrite missing. reflexivity. Qed.

(** [read_series] calls [is_file] without the flags it was given, so the
    exception of [is_file] leaves [read_series] whatever they are. *)
Lemma read_series_missing (warn error : bool) :
  read_series os (PyStr path) warn error
  = ([], Raise TypeError (MsgNotExist (PyStr (realpath os path)))).
Proof.
  unfold read_series. cbn [type_of].
  rewrite is_file_missing_raise. reflexivity.
Qed.
End MissingFile.

(** C3: on a string path that does not resolve to an existing regular file,
    [is_file] with [warn] set emits one warning and goes on to the end of the
    function without raising (whatever [error] is); with [warn] unset it
    raises, whatever [error] is. *)
Theorem is_file_missing (os : os_env) (path name : string) (error : bool) :
  isfile os (realpath os path) = false ->
  is_file os (PyStr path) name true error
  = ([MsgIgnoreIt (MsgNotExist (PyStr (realpath os path)))], Return PyNone)
  /\ is_file os (PyStr path) name false error
     = ([], Raise TypeError (MsgNotExist (PyStr (realpath os path)))).
Proof.
  intros missing. split.
  - now apply is_file_missing_warn.
  - now apply is_file_missing_raise.
Qed.

Lemma is_file_missing_witness :
  isfile (Sample.disk ∅) (realpath (Sample.disk ∅) "missing.tsv") = false
  /\ (is_file (Sample.disk ∅) (PyStr "missing.tsv") "variable" true true
      = ([MsgIgnoreIt (MsgNotExist (PyStr "missing.tsv"))], Return PyNone)
      /\ is_file (Sample.disk ∅) (PyStr "missing.tsv") "variable" false true
         = ([], Raise TypeError (MsgNotExist (PyStr "missing.tsv")))).
Proof.
  split; [reflexivity |].
  apply (is_file_missing (Sample.disk ∅) "missing.tsv" "variable" true). reflexivity.
Defined.

(** C1: on the path of a file that does not exist, [read_series] neither
    returns [None] under the default policy nor raises [FileNotFoundError]
    under [error=True]: both calls end in the [TypeError] of [is_file]. *)
Theorem read_series_missing_file_raises_TypeError :
  read_series (Sample.disk ∅) (PyStr "missing.tsv") false false
  = ([], Raise TypeError (MsgNotExist (PyStr "missing.tsv")))
  /\ read_series (Sample.disk ∅) (PyStr "missing.tsv") false true
     = ([], Raise TypeError (MsgNotExist (PyStr "missing.tsv"))).
Proof. split; reflexivity. Qed.

(** The branch that returns [None] or raises [FileNotFoundError] is the one
    of a target that is neither a series nor a string. *)
Lemma read_series_not_a_path (os : os_env) (target : PyValue) (warn error : bool) :
  type_of target <> TSeries -> type_of target <> TStr ->
  read_series os target warn error
  = (if warn then [MsgIgnoreIt (MsgNotExist target)] else [],
     if error then Raise FileNotFoundError (MsgNotExist target) else Return PyNone).
Proof.
  intros Hs Hp. unfold read_series.
  destruct target; cbn in *; try congruence; destruct warn, error; reflexivity.
Qed.

(** ** Failed checks and the policy *)

(** [is_integer]: a float with a fractional part, an infinity or a NaN. *)
Lemma is_integer_not_integral (v : PyValue) (f : float) (name : string)
    (warn error : bool) :
  float_value v = Some f -> float_is_integer f = false ->
  is_integer v name warn error
  = (if warn then [MsgNotInteger name v] else [],
     if error then Raise ValueError (MsgNotInteger name v)
     else Return (PyBool false)).
Proof.
  intros Hv Hf. unfold is_integer, method_is_integer.
  destruct v; try discriminate Hv; injection Hv as ->;
    cbn [isinstance_int isinstance_float type_of np_issubdtype orb];
    rewrite py_bind_ret, Hf; apply report_failure.
Qed.

Lemma is_integer_integral (v : PyValue) (f : float) (name : string)
    (warn error : bool) :
  float_value v = Some f -> float_is_integer f = true ->
  is_integer v name warn error = py_ret (PyBool true).
Proof.
  intros Hv Hf. unfold is_integer, method_is_integer.
  destruct v; try discriminate Hv; injection Hv as ->;
    cbn [isinstance_int isinstance_float type_of np_issubdtype orb];
    rewrite py_bind_ret, Hf; reflexivity.
Qed.

(** [is_integer]: a value that is not a number. *)
Lemma is_integer_wrong_type (v : PyValue) (name : string) (warn error : bool) :
  non_numeric v = true ->
  is_integer v name warn error
  = (if warn then [MsgNotNumber name (type_name (type_of v))] else [],
     if error then Raise TypeError (MsgNotNumber name (type_name (type_of v)))
     else Return (PyBool false)).
Proof.
  intros Hv. unfold is_integer.
  destruct v; cbn in Hv; try discriminate; apply report_failure.
Qed.

(** [is_positive_integer]: a number [is_integer] accepts and that is not
    above zero. *)
Lemma is_positive_integer_not_positive (x : PyValue) (name : string)
    (warn error : bool) :
  is_integer x name warn error = py_ret (PyBool true) ->
  greater_than_zero x = py_ret false ->
  is_positive_integer x name warn error
  = (if warn then [MsgNotPositive name x] else [],
     if error then Raise ValueError (MsgNotPositive name x)
     else Return (PyBool false)).
Proof.
  intros Hint Hpos. unfold is_positive_integer.
  rewrite Hint. py_run. rewrite Hpos, py_bind_ret. apply report_failure.
Qed.

Example is_positive_integer_zero :
  is_positive_integer (PyInt 0) "variable" true false
  = ([MsgNotPositive "variable" (PyInt 0)], Return (PyBool false)).
Proof. reflexivity. Qed.

(** [is_1darray]: a list or an array whose dimension is not one. *)
Lemma is_1darray_wrong_dimension (np : numpy_lib) (v : PyValue) (ndim : nat)
    (name : string) (warn error : bool) :
  ndim_of np v = py_ret ndim -> ndim <> 1 ->
  is_1darray np v name warn error
  = (if warn then [MsgWrongDim name ndim] else [],
     if error then Raise ValueError (MsgWrongDim name ndim)
     else Return (PyBool false)).
Proof.
  intros Hn Hd. unfold is_1darray.
  destruct v; cbn in Hn; try discriminate; cbn [type_of];
    (unfold ndim_of; unfold ndim_of in Hn; rewrite Hn; rewrite py_bind_ret;
     destruct (Nat.eqb_spec ndim 1); [contradiction | apply report_failure]).
Qed.

(** [is_1darray]: neither a series, a list nor an array. *)
Lemma is_1darray_wrong_type (np : numpy_lib) (v : PyValue) (name : string)
    (warn error : bool) :
  type_of v <> TSeries -> type_of v <> TList -> type_of v <> TNdarray ->
  is_1darray np v name warn error
  = (if warn then [MsgNotArray name (type_name (type_of v))] else [],
     if error then Raise TypeError (MsgNotArray name (type_name (type_of v)))
     else Return (PyBool false)).
Proof.
  intros Hs Hl Ha. unfold is_1darray.
  destruct v; cbn in *; try congruence; apply report_failure.
Qed.

(** [is_series_dataframe]: neither a series nor a dataframe. *)
Lemma is_series_dataframe_wrong_type (v : PyValue) (name : string) (warn error : bool) :
  isinstance_series_dataframe v = false ->
  is_series_dataframe v name warn error
  = (if warn then [MsgIgnoreIt (MsgNotSeriesDataFrame name)] else [],
     if error then Raise TypeError (MsgNotSeriesDataFrame name)
     else Return (PyBool false)).
Proof.
  intros Hv. unfold is_series_dataframe. rewrite Hv. apply report_failure.
Qed.

Lemma is_series_dataframe_ok (v : PyValue) (name : string) (warn error : bool) :
  isinstance_series_dataframe v = true ->
  is_series_dataframe v name warn error = py_ret (PyBool true).
Proof. intros Hv. unfold is_series_dataframe. rewrite Hv. reflexivity. Qed.

(** [is_file]: not a string. *)
Lemma is_file_wrong_type (os : os_env) (v : PyValue) (name : string) (warn error : bool) :
  type_of v <> TStr ->
  is_file os v name warn error
  = (if warn then [MsgIgnoreIt (MsgNotStr name (type_name (type_of v)))] else [],
     if error then Raise TypeError (MsgNotStr name (type_name (type_of v)))
     else Return (PyBool false)).
Proof.
  intros Hv. unfold is_file.
  destruct v; cbn in *; try congruence; apply report_failure.
Qed.

(** C2: two of the listed failures do not return the boolean [False] when the
    [error] flag is unset.  [have_same_index] on series whose label sets
    differ, and [is_file] on a missing file with [warn] set, reach the end of
    the function and return [None]. *)
Theorem mismatch_and_missing_file_return_None :
  have_same_index (labelled ["x"; "y"]) (labelled ["x"; "y"; "z"])
    "variable 1" "variable 2" false false
  = ([], Return PyNone)
  /\ is_file (Sample.disk ∅) (PyStr "missing.tsv") "variable" true false
     = ([MsgIgnoreIt (MsgNotExist (PyStr "missing.tsv"))], Return PyNone)
  /\ PyNone <> PyBool false.
Proof.
  split; [vm_compute; reflexivity | split; [reflexivity | discriminate]].
Qed.

(** ** [have_same_index] *)

Lemma label_set_eq_iff (ti si : list label) :
  label_set ti = label_set si <-> (forall l, l ∈ ti <-> l ∈ si).
Proof.
  unfold label_set. split.
  - intros Heq l.
    rewrite <- (elem_of_list_to_set (C := gset label) l ti), Heq.
    apply elem_of_list_to_set.
  - intros Hmem. apply set_eq. intros l.
    rewrite !elem_of_list_to_set. apply Hmem.
Qed.

Lemma index_of_labelled (v : PyValue) (index : list label) :
  index_of v = py_ret index -> isinstance_series_dataframe v = true.
Proof. destruct v; cbn; intros H; try discriminate; reflexivity. Qed.

(** What [have_same_index] does on two labelled inputs. *)
Lemma have_same_index_labelled (target source : PyValue) (ti si : list label)
    (tn sn : string) (warn error : bool) :
  index_of target = py_ret ti -> index_of source = py_ret si ->
  have_same_index target source tn sn warn error
  = if bool_decide (label_set ti = label_set si) then py_ret (PyBool true)
    else (if warn then [MsgIgnoreIt (MsgIndexMismatch tn sn)] else [],
          if error then Raise ValueError (MsgIndexMismatch tn sn)
          else Return PyNone).
Proof.
  intros Ht Hs. unfold have_same_index, py_and.
  rewrite (is_series_dataframe_ok target), (is_series_dataframe_ok source)
    by eauto using index_of_labelled.
  py_run.
  rewrite Ht, Hs, !py_bind_ret.
  destruct (bool_decide (label_set ti = label_set si)); [reflexivity |].
  apply report_failure_none.
Qed.

(** What it does when one of them is not: the second operand of [and] is not
    evaluated after a first failure, and no index is read. *)
Lemma have_same_index_first_invalid (target source : PyValue) (tn sn : string)
    (warn error : bool) :
  isinstance_series_dataframe target = false ->
  have_same_index target source tn sn warn error
  = (if warn then [MsgIgnoreIt (MsgNotSeriesDataFrame tn)] else [],
     if error then Raise TypeError (MsgNotSeriesDataFrame tn)
     else Return (PyBool false)).
Proof.
  intros Ht. unfold have_same_index, py_and.
  rewrite (is_series_dataframe_wrong_type target) by assumption.
  destruct warn, error; reflexivity.
Qed.

Lemma have_same_index_second_invalid (target source : PyValue) (tn sn : string)
    (warn error : bool) :
  isinstance_series_dataframe target = true ->
  isinstance_series_dataframe source = false ->
  have_same_index target source tn sn warn error
  = (if warn then [MsgIgnoreIt (MsgNotSeriesDataFrame sn)] else [],
     if error then Raise TypeError (MsgNotSeriesDataFrame sn)
     else Return (PyBool false)).
Proof.
  intros Ht Hs. unfold have_same_index, py_and.
  rewrite (is_series_dataframe_ok target) by assumption.
  rewrite (is_series_dataframe_wrong_type source) by assumption.
  destruct warn, error; reflexivity.
Qed.

(** C6: on two inputs that are series or dataframes, with indexes [ti] and
    [si], [have_same_index] returns [True] exactly when [ti] and [si] have
    the same labels, in any order and with any repetition; when they do not,
    it reports the mismatch as the policy says and its value, [None], is
    falsy.  When an input is not a series or a dataframe, it takes the
    disposition of the failed [is_series_dataframe] check ([False], or that
    check's [TypeError] under [error]) and reads no index. *)
Theorem have_same_index_spec (target source : PyValue) (tn sn : string)
    (warn error : bool) :
  (forall ti si,
     index_of target = py_ret ti -> index_of source = py_ret si ->
     (have_same_index target source tn sn warn error = py_ret (PyBool true)
      <-> (forall l, l ∈ ti <-> l ∈ si))
     /\ (ti ≡ₚ si ->
         have_same_index target source tn sn warn error = py_ret (PyBool true))
     /\ (~ (forall l, l ∈ ti <-> l ∈ si) ->
         have_same_index target source tn sn warn error
         = (if warn then [MsgIgnoreIt (MsgIndexMismatch tn sn)] else [],
            if error then Raise ValueError (MsgIndexMismatch tn sn)
            else Return PyNone)
         /\ truthy PyNone = py_ret false))
  /\ (isinstance_series_dataframe target = false ->
      have_same_index target source tn sn warn error
      = (if warn then [MsgIgnoreIt (MsgNotSeriesDataFrame tn)] else [],
         if error then Raise TypeError (MsgNotSeriesDataFrame tn)
         else Return (PyBool false)))
  /\ (isinstance_series_dataframe target = true ->
      isinstance_series_dataframe source = false ->
      have_same_index target source tn sn warn error
      = (if warn then [MsgIgnoreIt (MsgNotSeriesDataFrame sn)] else [],
         if error then Raise TypeError (MsgNotSeriesDataFrame sn)
         else Return (PyBool false))).
Proof.
  split; [| split].
  - intros ti si Ht Hs.
    rewrite (have_same_index_labelled target source ti si) by assumption.
    rewrite <- label_set_eq_iff.
    destruct (bool_decide_reflect (label_set ti = label_set si)) as [Heq | Hne].
    + repeat split; intros; try reflexivity; try assumption. contradiction.
    + split; [| split].
      * split; [| contradiction]. destruct warn, error; discriminate.
      * intros Hperm. exfalso. apply Hne. apply label_set_eq_iff.
        intros l. now rewrite Hperm.
      * intros _. split; reflexivity.
  - apply have_same_index_first_invalid.
  - apply have_same_index_second_invalid.
Qed.

Lemma have_same_index_spec_witness :
  index_of (labelled ["x"; "y"; "z"]) = py_ret [LStr "x"; LStr "y"; LStr "z"]
  /\ index_of (labelled ["z"; "x"; "y"]) = py_ret [LStr "z"; LStr "x"; LStr "y"]
  /\ [LStr "x"; LStr "y"; LStr "z"] ≡ₚ [LStr "z"; LStr "x"; LStr "y"]
  /\ have_same_index (labelled ["x"; "y"; "z"]) (labelled ["z"; "x"; "y"])
       "variable 1" "variable 2" false false
     = py_ret (PyBool true).
Proof.
  split; [reflexivity | split; [reflexivity |]].
  assert (Hperm : [LStr "x"; LStr "y"; LStr "z"] ≡ₚ [LStr "z"; LStr "x"; LStr "y"]).
  { change ([LStr "x"; LStr "y"] ++ [LStr "z"] ≡ₚ [LStr "z"] ++ [LStr "x"; LStr "y"]).
    apply Permutation_app_comm. }
  split; [exact Hperm |].
  apply (proj1 (have_same_index_spec (labelled ["x"; "y"; "z"]) (labelled ["z"; "x"; "y"])
                  "variable 1" "variable 2" false false)
           [LStr "x"; LStr "y"; LStr "z"] [LStr "z"; LStr "x"; LStr "y"]
           eq_refl eq_refl).
  exact Hperm.
Defined.

Example have_same_index_one_label_less :
  have_same_index (labelled ["x"; "y"]) (labelled ["x"; "y"; "z"])
    "variable 1" "variable 2" true true
  = ([MsgIgnoreIt (MsgIndexMismatch "variable 1" "variable 2")],
     Raise ValueError (MsgIndexMismatch "variable 1" "variable 2")).
Proof. vm_compute. reflexivity. Qed.

(** ** [is_integer] and [is_positive_integer] *)

(** [float.is_integer()] holds exactly of the floats whose value is an
    integer. *)
Lemma float_is_integer_iff (f : float) :
  float_is_integer f = true <-> fraction_is_zero f.
Proof.
  unfold float_is_integer, fraction_is_zero.
  destruct (Prim2SF f) as [s | s | | s m e]; try (split; [discriminate | contradiction]).
  - split; trivial.
  - destruct (Z.leb_spec 0 e) as [Hpos | Hneg]; cbn [orb].
    + split; [intros _ | reflexivity].
      exists (Z.pos m * 2 ^ e)%Z.
      rewrite (Z.max_r 0 e), (Z.max_l 0 (- e)) by lia.
      rewrite Z.pow_0_r. lia.
    + rewrite (Z.max_l 0 e), (Z.max_r 0 (- e)) by lia.
      rewrite Z.pow_0_r, Z.mul_1_r, Z.eqb_eq.
      assert (Hpow : (0 < 2 ^ (- e))%Z) by (apply Z.pow_pos_nonneg; lia).
      split.
      * intros Hmod. exists (Z.pos m / 2 ^ (- e))%Z.
        pose proof (Z.div_mod (Z.pos m) (2 ^ (- e))) as Hdm. lia.
      * intros [k Hk]. rewrite Hk. apply Z.mod_mul. lia.
Qed.

Lemma float_is_integer_false (f : float) :
  ~ fraction_is_zero f -> float_is_integer f = false.
Proof.
  intros Hf. destruct (float_is_integer f) eqn:E; [| reflexivity].
  exfalso. apply Hf, float_is_integer_iff, E.
Qed.

(** C7: [is_integer] returns [True] on every integer, and on every float
    whose fractional part is zero; under the default policy it returns
    [False], without raising, on every float that has a fractional part, and
    on every value that is not a number, where the failure is the wrong-type
    one: a warning about the type when [warn] is set, a [TypeError] when
    [error] is. *)
Theorem is_integer_spec (name : string) :
  (forall (v : PyValue) (k : Z) (warn error : bool),
     int_value v = Some k ->
     is_integer v name warn error = py_ret (PyBool true))
  /\ (forall (v : PyValue) (f : float) (warn error : bool),
        float_value v = Some f -> fraction_is_zero f ->
        is_integer v name warn error = py_ret (PyBool true))
  /\ (forall (v : PyValue) (f : float),
        float_value v = Some f -> ~ fraction_is_zero f ->
        is_integer v name false false = py_ret (PyBool false))
  /\ (forall (v : PyValue) (warn error : bool),
        non_numeric v = true ->
        is_integer v name false false = py_ret (PyBool false)
        /\ is_integer v name warn error
           = (if warn then [MsgNotNumber name (type_name (type_of v))] else [],
              if error
              then Raise TypeError (MsgNotNumber name (type_name (type_of v)))
              else Return (PyBool false))).
Proof.
  split; [| split; [| split]].
  - intros v k warn error Hv. destruct v; try discriminate Hv; reflexivity.
  - intros v f warn error Hv Hf.
    apply (is_integer_integral v f); [exact Hv |].
    apply float_is_integer_iff, Hf.
  - intros v f Hv Hf.
    rewrite (is_integer_not_integral v f)
      by (try exact Hv; apply float_is_integer_false, Hf).
    reflexivity.
  - intros v warn error Hv. split.
    + rewrite is_integer_wrong_type by exact Hv. reflexivity.
    + apply is_integer_wrong_type, Hv.
Qed.

Lemma is_integer_spec_witness :
  (fraction_is_zero 3%float
   /\ is_integer (PyFloat 3) "variable" false false = py_ret (PyBool true))
  /\ (~ fraction_is_zero 2.5%float
      /\ is_integer (NpFloat64 2.5) "variable" false false = py_ret (PyBool false))
  /\ (non_numeric (PyStr "3") = true
      /\ is_integer (PyStr "3") "variable" false false = py_ret (PyBool false)).
Proof.
  assert (H3 : fraction_is_zero 3%float).
  { apply float_is_integer_iff. reflexivity. }
  assert (H25 : ~ fraction_is_zero 2.5%float).
  { intros H. apply float_is_integer_iff in H. discriminate H. }
  destruct (is_integer_spec "variable") as (_ & Hzero & Hfrac & Htype).
  split; [| split].
  - split; [exact H3 | exact (Hzero (PyFloat 3) 3%float false false eq_refl H3)].
  - split; [exact H25 | exact (Hfrac (NpFloat64 2.5) 2.5%float eq_refl H25)].
  - split; [reflexivity |].
    exact (proj1 (Htype (PyStr "3") false false eq_refl)).
Defined.

(** C10: a Python boolean is an [int] for [isinstance], so [is_integer]
    returns [True] on both booleans before any other test runs, and
    [is_positive_integer(True)] returns [True]. *)
Theorem booleans_are_integers (name : string) (warn error : bool) :
  (forall b : bool, is_integer (PyBool b) name warn error = py_ret (PyBool true))
  /\ is_positive_integer (PyBool true) name warn error = py_ret (PyBool true).
Proof. split; [intros b |]; reflexivity. Qed.

Example is_positive_integer_False :
  is_positive_integer (PyBool false) "variable" false false = py_ret (PyBool false).
Proof. reflexivity. Qed.

Example is_integer_infinity :
  is_integer (PyFloat infinity) "variable" false false = py_ret (PyBool false).
Proof. reflexivity. Qed.

(** A complex number passes the [np.inexact] probe and has no [is_integer]
    method. *)
Example is_integer_complex :
  is_integer (PyComplex 1.5 0) "variable" false false
  = ([], Raise AttributeError (MsgBuiltin "complex object has no attribute is_integer")).
Proof. reflexivity. Qed.

(** ** [reduce_data] *)

Lemma odd_mod_2 (n : nat) : Nat.odd n = true -> Nat.eqb (n mod 2) 0 = false.
Proof.
  intros Hodd. apply Nat.odd_spec in Hodd. destruct Hodd as [m ->].
  rewrite Nat.add_comm, Nat.mul_comm, Nat.Div0.mod_add. reflexivity.
Qed.

(** C9: when the length of the input along the chosen axis is odd,
    [reduce_data] raises the [ValueError] of [np.split], and so returns no
    value. *)
Theorem reduce_data_odd_length (target : ndarray) (axis : Z) (k : nat) :
  tuple_position (length (shape target)) axis = Some k ->
  Nat.odd (nth k (shape target) 0) = true ->
  reduce_data target axis
  = ([], Raise ValueError
           (MsgBuiltin "array split does not result in an equal division"))
  /\ (forall r, outcome_of (reduce_data target axis) <> Return r).
Proof.
  intros Haxis Hodd.
  assert (Hraise : reduce_data target axis
                   = ([], Raise ValueError
                            (MsgBuiltin "array split does not result in an equal division"))).
  { unfold reduce_data, np_split, tuple_getitem. rewrite Haxis, py_bind_ret.
    cbn [Nat.eqb]. rewrite (odd_mod_2 _ Hodd). reflexivity. }
  split; [exact Hraise |].
  intros r. rewrite Hraise. discriminate.
Qed.

Lemma reduce_data_odd_length_witness :
  tuple_position (length (shape (vector [1; 2; 3]%float))) 0 = Some 0
  /\ Nat.odd (nth 0 (shape (vector [1; 2; 3]%float)) 0) = true
  /\ reduce_data (vector [1; 2; 3]%float) 0
     = ([], Raise ValueError
              (MsgBuiltin "array split does not result in an equal division")).
Proof.
  split; [reflexivity | split; [reflexivity |]].
  apply (reduce_data_odd_length (vector [1; 2; 3]%float) 0 0); reflexivity.
Defined.

Example reduce_data_odd_columns :
  reduce_data {| shape := [2; 3]; data := [1; 2; 3; 4; 5; 6]%float |} (-1)
  = ([], Raise ValueError
           (MsgBuiltin "array split does not result in an equal division")).
Proof. reflexivity. Qed.

Example reduce_data_even_rows :
  reduce_data {| shape := [2; 3]; data := [1; 2; 3; 4; 5; 6]%float |} 0
  = py_ret {| shape := [1; 3]; data := [1; 2; 3]%float |}.
Proof. reflexivity. Qed.

Lemma even_mod_2 (n : nat) : Nat.even n = true -> n mod 2 = 0 /\ n = n / 2 + n / 2.
Proof.
  intros Heven. apply Nat.even_spec in Heven. destruct Heven as [m ->].
  rewrite (Nat.mul_comm 2 m), Nat.Div0.mod_mul, Nat.div_mul by discriminate.
  split; lia.
Qed.

(** When the length along the axis is even, [reduce_data] returns the slice
    of the first half of the positions along that axis. *)
Lemma reduce_data_even_length (target : ndarray) (axis : Z) (k : nat) :
  tuple_position (length (shape target)) axis = Some k ->
  Nat.even (nth k (shape target) 0) = true ->
  reduce_data target axis
  = py_ret (slice_axis target k 0 (nth k (shape target) 0 / 2)).
Proof.
  intros Haxis Heven. destruct (even_mod_2 _ Heven) as [Hmod _].
  unfold reduce_data, np_split, np_array_split, tuple_getitem.
  rewrite Haxis, !py_bind_ret. cbn [Nat.eqb]. rewrite Hmod. cbn [Nat.eqb negb].
  rewrite py_bind_ret. unfold section_sizes. rewrite Hmod.
  cbn [repeat Nat.sub app div_points map fst snd first_item Nat.add].
  reflexivity.
Qed.

(** On a flat array of even length, [reduce_data] returns the first half. *)
Lemma reduce_data_flat (d : list float) (n : nat) :
  length d = n + n ->
  reduce_data {| shape := [n + n]; data := d |} 0
  = py_ret {| shape := [n]; data := firstn n d |}.
Proof.
  intros Hlen.
  assert (Hmod : (n + n) mod 2 = 0).
  { replace (n + n) with (n * 2) by lia. apply Nat.Div0.mod_mul. }
  assert (Hdiv : (n + n) / 2 = n).
  { replace (n + n) with (n * 2) by lia. apply Nat.div_mul. discriminate. }
  unfold reduce_data, np_split, np_array_split, tuple_getitem.
  cbn [shape data length nth].
  change (tuple_position 1 0) with (Some 0). cbv beta iota.
  rewrite !py_bind_ret. cbn [Nat.eqb]. rewrite Hmod. cbn [Nat.eqb negb].
  rewrite py_bind_ret.
  unfold section_sizes. rewrite Hmod, Hdiv.
  cbn [repeat Nat.sub app div_points map fst snd first_item Nat.add].
  unfold slice_axis.
  cbn [shape data firstn skipn product fold_right nth app slice_blocks].
  rewrite !Nat.mul_1_r, !Nat.sub_0_r, app_nil_r.
  cbn [skipn]. rewrite <- Hlen, firstn_all. reflexivity.
Qed.

(** ** [augment_data] *)

Lemma length_negate (t : list float) : length (negate t) = length t.
Proof. apply length_map. Qed.

Lemma length_log2_plus_one (np : numpy_lib) (t : list float) :
  length (log2_plus_one np t) = length t.
Proof. apply length_map. Qed.

(** Line 42 is decided on every array that has an element, and raises on the
    empty one. *)
Lemma already_log_transformed_nonempty (target : list float) :
  target <> [] -> exists skip, already_log_transformed target = py_ret skip.
Proof.
  destruct target as [| x xs]; [contradiction | intros _].
  unfold already_log_transformed, np_max, np_min. rewrite py_bind_ret.
  destruct (fold_left np_maximum xs x <? 100)%float;
    [rewrite py_bind_ret |]; eauto.
Qed.

Lemma already_log_transformed_decided (target : list float) (skip : bool) :
  already_log_transformed target = py_ret skip -> target <> [].
Proof. intros H ->. discriminate H. Qed.

(** The warnings and the result of [augment_data] once line 42 is decided:
    the mean decides a warning and nothing of the result. *)
Lemma augment_data_eq (np : numpy_lib) (v : ndarray) (name : string)
    (warn skip : bool) :
  already_log_transformed (data v) = py_ret skip ->
  augment_data np v name warn
  = (((if np_isclose (np_mean np (data v)) 0 && warn then [MsgCentered name] else [])
        ++ (if skip && warn then [MsgLogTransformed name] else []))%list,
     Return (np_concatenate
               (if skip then data v else log2_plus_one np (data v))
               (negate (if skip then data v else log2_plus_one np (data v))))).
Proof.
  intros Hskip. unfold augment_data. rewrite Hskip.
  destruct (np_isclose (np_mean np (data v)) 0), warn, skip; reflexivity.
Qed.

Lemma augment_data_empty (np : numpy_lib) (v : ndarray) (name : string) (warn : bool) :
  data v = [] ->
  outcome_of (augment_data np v name warn)
  = Raise ValueError
      (MsgBuiltin "zero-size array to reduction operation maximum which has no identity").
Proof.
  intros Hv. unfold augment_data. rewrite Hv.
  destruct (np_isclose (np_mean np []) 0), warn; reflexivity.
Qed.

Lemma outcome_of_bind_return {A B} (c : py A) (a : A) (k : A -> py B) :
  outcome_of c = Return a -> outcome_of (x <~ c ;; k x) = outcome_of (k a).
Proof.
  destruct c as [w o]. cbn. intros ->. cbn. destruct (k a). reflexivity.
Qed.

Lemma outcome_of_bind_raise {A B} (c : py A) (e : exception) (m : message)
    (k : A -> py B) :
  outcome_of c = Raise e m -> outcome_of (x <~ c ;; k x) = Raise e m.
Proof. destruct c as [w o]. cbn. intros ->. reflexivity. Qed.

(** Where the first half is NaN: at the elements below [-1], and at a NaN. *)
Lemma np_log2_below_minus_one (np : numpy_lib) (x : float) :
  (x + 1 <? 0)%float = true -> np_log2 np (x + 1) = nan.
Proof.
  intros Hx. unfold np_log2. rewrite Hx. destruct (is_nan (x + 1)); reflexivity.
Qed.

Lemma np_log2_nan (np : numpy_lib) (x : float) :
  is_nan x = true -> np_log2 np x = nan.
Proof. intros Hx. unfold np_log2. rewrite Hx. reflexivity. Qed.

(** [x == x] fails exactly at a NaN. *)
Lemma np_equal_self (x : list float) :
  np_equal x x = map (fun y => negb (is_nan y)) x.
Proof.
  unfold np_equal. induction x as [| y x IH]; [reflexivity |].
  cbn [combine map fst snd]. rewrite IH. unfold is_nan.
  rewrite negb_involutive. reflexivity.
Qed.

(** [-1 * y] is NaN exactly when [y] is: the rounding of a product of finite
    numbers shifts and increments a mantissa that is never negative. *)
Lemma SFeqb_refl (s : spec_float) : SFeqb s s = negb (sf_is_nan s).
Proof.
  unfold SFeqb. destruct s as [[] | [] | | [] m e]; cbn; try reflexivity;
    rewrite Z.compare_refl, Pos.compare_cont_refl; reflexivity.
Qed.

Lemma is_nan_Prim2SF (x : float) : is_nan x = sf_is_nan (Prim2SF x).
Proof.
  unfold is_nan. rewrite FloatAxioms.eqb_spec, SFeqb_refl. apply negb_involutive.
Qed.

Lemma shr_1_nonneg (mrs : shr_record) :
  (0 <= shr_m mrs)%Z -> (0 <= shr_m (shr_1 mrs))%Z.
Proof.
  destruct mrs as [[| p | p] r s]; cbn; intros H; try lia;
    destruct p; cbn; lia.
Qed.

Lemma iter_shr_1_nonneg (p : positive) (mrs : shr_record) :
  (0 <= shr_m mrs)%Z -> (0 <= shr_m (SpecFloat.iter_pos shr_1 p mrs))%Z.
Proof.
  revert mrs. induction p as [p IH | p IH |]; intros mrs H; cbn.
  - apply IH, IH, shr_1_nonneg, H.
  - apply IH, IH, H.
  - apply shr_1_nonneg, H.
Qed.

Lemma shr_fexp_nonneg (prec emax m e : Z) (l : location) :
  (0 <= m)%Z -> (0 <= shr_m (fst (shr_fexp prec emax m e l)))%Z.
Proof.
  intros H. unfold shr_fexp, shr.
  assert (H0 : (0 <= shr_m (shr_record_of_loc m l))%Z).
  { destruct l as [| []]; exact H. }
  destruct (fexp prec emax (Zdigits2 m + e) - e)%Z; cbn [fst]; try exact H0.
  apply iter_shr_1_nonneg, H0.
Qed.

Lemma round_nearest_even_nonneg (m : Z) (l : location) :
  (0 <= m)%Z -> (0 <= round_nearest_even m l)%Z.
Proof.
  intros H. destruct l as [| []]; cbn; try lia. destruct (Z.even m); lia.
Qed.

Lemma binary_round_aux_not_nan (prec emax : Z) (sx : bool) (mx ex : Z)
    (lx : location) :
  (0 <= mx)%Z -> sf_is_nan (binary_round_aux prec emax sx mx ex lx) = false.
Proof.
  intros H. unfold binary_round_aux.
  pose proof (shr_fexp_nonneg prec emax mx ex lx H) as H1.
  destruct (shr_fexp prec emax mx ex lx) as [mrs' e']. cbn [fst] in H1.
  pose proof (shr_fexp_nonneg prec emax _ e' loc_Exact
                (round_nearest_even_nonneg _ (loc_of_shr_record mrs') H1)) as H2.
  destruct (shr_fexp prec emax _ e' loc_Exact) as [mrs'' e'']. cbn [fst] in H2.
  destruct (shr_m mrs'') as [| m | m]; [reflexivity | | lia].
  destruct (e'' <=? emax - prec)%Z; reflexivity.
Qed.

Lemma is_nan_minus_one_mul (y : float) : is_nan (-1 * y)%float = is_nan y.
Proof.
  rewrite !is_nan_Prim2SF, mul_spec.
  change (Prim2SF (-1)) with (S754_finite true 4503599627370496 (-52)).
  unfold SF64mul, SFmul.
  destruct (Prim2SF y) as [s | s | | s m e]; try reflexivity.
  apply binary_round_aux_not_nan. lia.
Qed.

(** [-1 * t == -1 * t] fails exactly where [t] is NaN. *)
Lemma np_equal_negate (t : list float) :
  np_equal (negate t) (negate t) = map (fun y => negb (is_nan y)) t.
Proof.
  rewrite np_equal_self. unfold negate. rewrite map_map.
  apply map_ext. intros y. rewrite is_nan_minus_one_mul. reflexivity.
Qed.

(** C5, as amended: for every array [v] with at least one element, of [n]
    elements in all, [augment_data] returns a flat array of [2n] elements
    and [reduce_data] returns its first half, of [n] elements, so
    [reduce_data(augment_data(v))] has length [n]. *)
Theorem reduce_augment_length (np : numpy_lib) (v : ndarray) (name : string)
    (warn : bool) (n : nat) :
  length (data v) = n -> data v <> [] ->
  exists a r,
    outcome_of (augment_data np v name warn) = Return a
    /\ shape a = [2 * n] /\ length (data a) = 2 * n
    /\ reduce_data a 0 = py_ret r
    /\ outcome_of (reduce_augment np v name warn) = Return r
    /\ shape r = [n] /\ length (data r) = n
    /\ data r = firstn n (data a).
Proof.
  intros Hn Hne.
  destruct (already_log_transformed_nonempty (data v) Hne) as [skip Hskip].
  pose proof (augment_data_eq np v name warn skip Hskip) as Haug.
  set (t := if skip then data v else log2_plus_one np (data v)) in *.
  assert (Ht : length t = n).
  { subst t. destruct skip; [| rewrite length_log2_plus_one]; exact Hn. }
  assert (Hred : reduce_data (np_concatenate t (negate t)) 0
                 = py_ret {| shape := [n]; data := firstn n (t ++ negate t) |}).
  { unfold np_concatenate. rewrite length_negate, Ht.
    apply reduce_data_flat. rewrite length_app, length_negate, Ht. reflexivity. }
  exists (np_concatenate t (negate t)),
         {| shape := [n]; data := firstn n (t ++ negate t) |}.
  split; [rewrite Haug; reflexivity |].
  split; [cbn; rewrite length_negate, Ht; f_equal; lia |].
  split; [cbn; rewrite length_app, length_negate, Ht; lia |].
  split; [exact Hred |].
  split.
  { unfold reduce_augment.
    rewrite (outcome_of_bind_return _ (np_concatenate t (negate t)))
      by (rewrite Haug; reflexivity).
    rewrite Hred. reflexivity. }
  split; [reflexivity |].
  split; [| reflexivity].
  cbn [data]. rewrite length_firstn, length_app, length_negate, Ht. lia.
Qed.

Lemma reduce_augment_length_witness :
  length (data (vector [3; 255]%float)) = 2
  /\ data (vector [3; 255]%float) <> []
  /\ exists a r,
       outcome_of (augment_data Sample.numpy (vector [3; 255]%float) "variable" false)
       = Return a
       /\ shape a = [2 * 2] /\ length (data a) = 2 * 2
       /\ reduce_data a 0 = py_ret r
       /\ outcome_of (reduce_augment Sample.numpy (vector [3; 255]%float) "variable" false)
          = Return r
       /\ shape r = [2] /\ length (data r) = 2
       /\ data r = firstn 2 (data a).
Proof.
  split; [reflexivity | split; [discriminate |]].
  apply (reduce_augment_length Sample.numpy (vector [3; 255]%float) "variable" false 2).
  - reflexivity.
  - discriminate.
Defined.

(** C5 as stated fails on the vector of length zero: [np.max] has no value
    on it, so [augment_data] raises and no array of length zero comes back,
    with any numpy. *)
Lemma reduce_augment_empty_vector :
  ~ exists (np : numpy_lib) (name : string) (warn : bool) (r : ndarray),
      outcome_of (reduce_augment np (vector []) name warn) = Return r.
Proof.
  intros (np & name & warn & r & Hr).
  unfold reduce_augment in Hr.
  rewrite (outcome_of_bind_raise _ _ _ _ (augment_data_empty np (vector []) name warn eq_refl))
    in Hr.
  discriminate Hr.
Qed.

(** C4, as amended: when the mean is not close to zero and line 42 does not
    hold of [v], of [n] elements, [augment_data] warns of nothing and returns
    a flat array of [2n] elements whose first half is [log2(v + 1)] and
    whose second half is [-1] times the first, value for value; the
    comparison [a[n:] == -1 * a[:n]] is true at the positions where
    [log2(v + 1)] is not NaN and false where it is. *)
Theorem augment_data_log_branch (np : numpy_lib) (v : ndarray) (name : string)
    (warn : bool) (n : nat) :
  length (data v) = n ->
  np_isclose (np_mean np (data v)) 0 = false ->
  already_log_transformed (data v) = py_ret false ->
  exists a,
    augment_data np v name warn = py_ret a
    /\ shape a = [2 * n] /\ length (data a) = 2 * n
    /\ firstn n (data a) = log2_plus_one np (data v)
    /\ skipn n (data a) = negate (firstn n (data a))
    /\ np_equal (skipn n (data a)) (negate (firstn n (data a)))
       = map (fun y => negb (is_nan y)) (log2_plus_one np (data v)).
Proof.
  intros Hn Hmean Hskip.
  pose proof (augment_data_eq np v name warn false Hskip) as Haug.
  rewrite Hmean in Haug. cbn [andb app] in Haug.
  set (t := log2_plus_one np (data v)) in *.
  assert (Ht : length t = n) by (subst t; rewrite length_log2_plus_one; exact Hn).
  assert (Hfirst : firstn n (t ++ negate t) = t).
  { rewrite <- Ht. apply take_app_length. }
  assert (Hsecond : skipn n (t ++ negate t) = negate t).
  { rewrite <- Ht. apply drop_app_length. }
  exists (np_concatenate t (negate t)).
  split; [exact Haug |].
  split; [cbn; rewrite length_negate, Ht; f_equal; lia |].
  split; [cbn; rewrite length_app, length_negate, Ht; lia |].
  cbn [data np_concatenate]. rewrite Hfirst, Hsecond.
  repeat split. apply np_equal_negate.
Qed.

Lemma augment_data_log_branch_witness :
  length (data (vector [3; 255]%float)) = 2
  /\ np_isclose (np_mean Sample.numpy (data (vector [3; 255]%float))) 0 = false
  /\ already_log_transformed (data (vector [3; 255]%float)) = py_ret false
  /\ exists a,
       augment_data Sample.numpy (vector [3; 255]%float) "variable" true = py_ret a
       /\ shape a = [2 * 2] /\ length (data a) = 2 * 2
       /\ firstn 2 (data a) = log2_plus_one Sample.numpy (data (vector [3; 255]%float))
       /\ skipn 2 (data a) = negate (firstn 2 (data a))
       /\ np_equal (skipn 2 (data a)) (negate (firstn 2 (data a)))
          = map (fun y => negb (is_nan y))
                (log2_plus_one Sample.numpy (data (vector [3; 255]%float))).
Proof.
  split; [reflexivity | split; [reflexivity | split; [reflexivity |]]].
  apply (augment_data_log_branch Sample.numpy (vector [3; 255]%float) "variable" true 2);
    reflexivity.
Defined.

(** C4 as stated fails where the logarithm has no value.  On [[-3, 150]] the
    mean, 73.5 in whatever order the two elements are added, is not close to
    zero and the maximum is not below 100, so the log branch is taken;
    [log2(-3 + 1)] is NaN and a NaN is equal to nothing, so
    [a[n:] == -1 * a[:n]] is false at position 0, with any numpy. *)
Lemma augment_data_nan_not_equal :
  np_isclose ((-3 + 150) / 2) 0 = false
  /\ already_log_transformed [-3; 150]%float = py_ret false
  /\ ~ exists (np : numpy_lib) (name : string) (warn : bool) (a : ndarray),
         outcome_of (augment_data np (vector [-3; 150]%float) name warn) = Return a
         /\ np_all (np_equal (skipn 2 (data a)) (negate (firstn 2 (data a)))) = true.
Proof.
  split; [reflexivity | split; [reflexivity |]].
  intros (np & name & warn & a & Ha & Hall).
  rewrite (augment_data_eq np (vector [-3; 150]%float) name warn false eq_refl) in Ha.
  cbn [outcome_of snd] in Ha. injection Ha as <-.
  vm_compute in Hall. discriminate Hall.
Qed.

Example augment_data_minus3_150 :
  augment_data Sample.numpy (vector [-3; 150]%float) "variable" true
  = py_ret {| shape := [4]; data := [nan; 7.1796875; nan; -7.1796875]%float |}
  /\ np_isclose (np_mean Sample.numpy [-3; 150]%float) 0 = false
  /\ np_equal [nan; -7.1796875]%float (negate [nan; 7.1796875]%float) = [false; true].
Proof. repeat split. Qed.

(** ** [likelihood_ratio_test] *)

Example likelihood_ratio_20 : likelihood_ratio (-100) (-90) = 20%float.
Proof. reflexivity. Qed.

Example likelihood_ratio_test_20 (chi2_sf : float -> Z -> float) :
  likelihood_ratio_test chi2_sf (-100) (-90) 4 = chi2_sf 20%float 4%Z.
Proof. reflexivity. Qed.

(** * Further properties *)

(** ** How a validator call can end *)

Lemma is_integer_cases (v : PyValue) (name : string) (warn error : bool) :
  is_integer v name warn error = py_ret (PyBool true)
  \/ (exists m e, is_integer v name warn error = report warn error m m e (PyBool false))
  \/ (exists m, is_integer v name warn error = ([], Raise AttributeError m)).
Proof.
  destruct (non_numeric v) eqn:Hnum.
  - right; left. rewrite is_integer_wrong_type by exact Hnum. eexists _, _. reflexivity.
  - destruct v; try discriminate Hnum; try (left; reflexivity).
    + destruct (float_is_integer f) eqn:Hf.
      * left. apply (is_integer_integral (PyFloat f) f); [reflexivity | exact Hf].
      * right; left.
        rewrite (is_integer_not_integral (PyFloat f) f) by (reflexivity || exact Hf).
        eexists _, _. reflexivity.
    + right; right. eexists. reflexivity.
    + destruct (float_is_integer f) eqn:Hf.
      * left. apply (is_integer_integral (NpFloat64 f) f); [reflexivity | exact Hf].
      * right; left.
        rewrite (is_integer_not_integral (NpFloat64 f) f) by (reflexivity || exact Hf).
        eexists _, _. reflexivity.
Qed.

Lemma is_integer_verdict (v : PyValue) (name : string) (warn error : bool) :
  verdict warn error (is_integer v name warn error).
Proof.
  destruct (is_integer_cases v name warn error) as [-> | [(m & e & ->) | (m & ->)]];
    constructor.
Qed.

(** After a check of [is_integer] that did not pass, [is_positive_integer]
    ends as that check did. *)
Lemma is_positive_integer_after_failure (x : PyValue) (name : string)
    (warn error : bool) :
  is_integer x name warn error <> py_ret (PyBool true) ->
  is_positive_integer x name warn error = is_integer x name warn error.
Proof.
  intros Hfail. unfold is_positive_integer.
  destruct (is_integer_cases x name warn error) as [H | [(m & e & ->) | (m & ->)]].
  - contradiction.
  - unfold report. destruct warn, error; reflexivity.
  - reflexivity.
Qed.

(** What [x > 0] is on the values [is_integer] accepts. *)
Lemma greater_than_zero_accepted (x : PyValue) (name : string) (warn error : bool) :
  is_integer x name warn error = py_ret (PyBool true) ->
  exists b, greater_than_zero x = py_ret b.
Proof.
  intros Hint. destruct x; cbn [greater_than_zero]; eauto;
    try (rewrite is_integer_wrong_type in Hint by reflexivity);
    destruct warn, error; discriminate Hint.
Qed.

Lemma is_positive_integer_positive (x : PyValue) (name : string)
    (warn error : bool) :
  is_integer x name warn error = py_ret (PyBool true) ->
  greater_than_zero x = py_ret true ->
  is_positive_integer x name warn error = py_ret (PyBool true).
Proof.
  intros Hint Hpos. unfold is_positive_integer.
  rewrite Hint. py_run. rewrite Hpos, py_bind_ret. reflexivity.
Qed.

Lemma is_positive_integer_verdict (x : PyValue) (name : string) (warn error : bool) :
  verdict warn error (is_positive_integer x name warn error).
Proof.
  destruct (is_integer_cases x name warn error) as [H | [(m & e & H) | (m & H)]].
  2, 3: rewrite is_positive_integer_after_failure;
        [rewrite H; constructor
        | rewrite H; unfold report; destruct warn, error; discriminate].
  destruct (greater_than_zero_accepted x name warn error H) as [[] Hb].
  - rewrite is_positive_integer_positive by congruence. apply verdict_pass.
  - rewrite is_positive_integer_not_positive by congruence. apply verdict_fail.
Qed.

Lemma is_1darray_verdict (np : numpy_lib) (v : PyValue) (name : string)
    (warn error : bool) :
  verdict warn error (is_1darray np v name warn error).
Proof.
  destruct v;
    try (rewrite is_1darray_wrong_type by discriminate; apply verdict_fail);
    try apply verdict_pass.
  - unfold is_1darray. cbn [type_of ndim_of].
    destruct (np_array_ndim np l) as [ndim | e m] eqn:Hl; [| apply verdict_raise].
    change ([], Return ndim) with (py_ret (A := nat) ndim). rewrite py_bind_ret.
    destruct (Nat.eqb ndim 1); [apply verdict_pass |].
    rewrite report_failure. apply verdict_fail.
  - unfold is_1darray. cbn [type_of ndim_of]. rewrite py_bind_ret.
    destruct (Nat.eqb (length (shape a)) 1); [apply verdict_pass |].
    rewrite report_failure. apply verdict_fail.
Qed.

Lemma is_series_dataframe_verdict (v : PyValue) (name : string) (warn error : bool) :
  verdict warn error (is_series_dataframe v name warn error).
Proof.
  destruct (isinstance_series_dataframe v) eqn:Hv.
  - rewrite is_series_dataframe_ok by exact Hv. apply verdict_pass.
  - rewrite is_series_dataframe_wrong_type by exact Hv. apply verdict_fail.
Qed.

Lemma labelled_index_of (v : PyValue) :
  isinstance_series_dataframe v = true -> exists index, index_of v = py_ret index.
Proof. destruct v; cbn; intros H; try discriminate; eauto. Qed.

Lemma have_same_index_verdict (target source : PyValue) (tn sn : string)
    (warn error : bool) :
  verdict warn error (have_same_index target source tn sn warn error).
Proof.
  destruct (isinstance_series_dataframe target) eqn:Ht.
  - destruct (isinstance_series_dataframe source) eqn:Hs.
    + destruct (labelled_index_of target Ht) as [ti Hti].
      destruct (labelled_index_of source Hs) as [si Hsi].
      rewrite (have_same_index_labelled target source ti si) by assumption.
      destruct (bool_decide (label_set ti = label_set si));
        [apply verdict_pass | apply verdict_fail_none].
    + rewrite have_same_index_second_invalid by assumption. apply verdict_fail.
  - rewrite have_same_index_first_invalid by assumption. apply verdict_fail.
Qed.

(** [is_file] ends like the other validators, but for a missing file: with
    [warn] set it warns and returns [None] whatever [error] is, and with
    [warn] unset it raises whatever [error] is. *)
Lemma is_file_cases (os : os_env) (target : PyValue) (name : string)
    (warn error : bool) :
  verdict warn error (is_file os target name warn error)
  \/ (exists p,
        target = PyStr p /\ isfile os (realpath os p) = false /\ warn = true
        /\ is_file os target name warn error
           = ([MsgIgnoreIt (MsgNotExist (PyStr (realpath os p)))], Return PyNone)).
Proof.
  destruct (type_of target) eqn:Ht;
    try (left; rewrite is_file_wrong_type by congruence; apply verdict_fail).
  destruct target; try discriminate Ht.
  destruct (isfile os (realpath os s)) eqn:Hfile.
  - left. unfold is_file. rewrite Hfile. apply verdict_pass.
  - destruct warn.
    + right. exists s. repeat split; try assumption.
      now apply is_file_missing_warn.
    + left. rewrite is_file_missing_raise by assumption. apply verdict_raise.
Qed.

Lemma run_check_cases (np : numpy_lib) (os : os_env) (c : check) (name : string)
    (warn error : bool) :
  verdict warn error (run_check np os c name warn error)
  \/ (exists p,
        c = CheckFile (PyStr p) /\ isfile os (realpath os p) = false /\ warn = true
        /\ run_check np os c name warn error
           = ([MsgIgnoreIt (MsgNotExist (PyStr (realpath os p)))], Return PyNone)).
Proof.
  destruct c; cbn [run_check].
  - left. apply is_integer_verdict.
  - left. apply is_positive_integer_verdict.
  - left. apply is_1darray_verdict.
  - destruct (is_file_cases os target name warn error) as [H | (p & -> & H)];
      [left; exact H | right; exists p; split; [reflexivity | exact H]].
  - left. apply is_series_dataframe_verdict.
  - left. apply have_same_index_verdict.
Qed.

Lemma verdict_inv (warn error : bool) (c : py PyValue) :
  verdict warn error c ->
  c = py_ret (PyBool true)
  \/ (exists w m e o, c = report warn error w m e o /\ o <> PyBool true)
  \/ (exists e m, c = ([], Raise e m)).
Proof.
  intros [| w m e | w m e | e m].
  - left. reflexivity.
  - right; left. exists w, m, e, (PyBool false). split; [reflexivity | discriminate].
  - right; left. exists w, m, e, PyNone. split; [reflexivity | discriminate].
  - right; right. eauto.
Qed.

(** X5: a check that returns [True] has emitted no warning, whichever of the
    six validators it is and whatever the flags are. *)
Theorem passing_check_is_silent (np : numpy_lib) (os : os_env) (c : check)
    (name : string) (warn error : bool) (w : list message) :
  run_check np os c name warn error = (w, Return (PyBool true)) -> w = [].
Proof.
  intros Hrun.
  destruct (run_check_cases np os c name warn error)
    as [Hv | (p & _ & _ & _ & Hnone)].
  - rewrite Hrun in Hv.
    destruct (verdict_inv _ _ _ Hv) as [Heq | [(w' & m & e & o & Heq & Ho) | (e & m & Heq)]].
    + injection Heq as ->. reflexivity.
    + unfold report in Heq. destruct warn, error; try discriminate Heq;
        injection Heq as _ Heq; congruence.
    + discriminate Heq.
  - rewrite Hrun in Hnone. discriminate Hnone.
Qed.

Lemma passing_check_is_silent_witness :
  run_check Sample.numpy (Sample.disk ∅) (CheckPositiveInteger (PyFloat 3))
    "variable" true true
  = ([], Return (PyBool true))
  /\ ([] : list message) = [].
Proof.
  split; [reflexivity |].
  apply (passing_check_is_silent Sample.numpy (Sample.disk ∅)
           (CheckPositiveInteger (PyFloat 3)) "variable" true true []).
  reflexivity.
Defined.

(** X6: with [error] set, a validator that returns has returned [True]; the
    one exception is [is_file] on a missing file with [warn] set, which
    returns [None]. *)
Theorem strict_check_passes_or_raises (np : numpy_lib) (os : os_env) (c : check)
    (name : string) (warn : bool) (v : PyValue) :
  outcome_of (run_check np os c name warn true) = Return v ->
  v = PyBool true
  \/ (exists p,
        c = CheckFile (PyStr p) /\ isfile os (realpath os p) = false
        /\ warn = true /\ v = PyNone).
Proof.
  intros Hrun.
  destruct (run_check_cases np os c name warn true)
    as [Hv | (p & Hc & Hfile & Hwarn & Hnone)].
  - left.
    destruct (verdict_inv _ _ _ Hv) as [Heq | [(w' & m & e & o & Heq & Ho) | (e & m & Heq)]];
      rewrite Heq in Hrun; cbn in Hrun; congruence.
  - right. exists p. rewrite Hnone in Hrun. cbn in Hrun.
    repeat split; congruence.
Qed.

Lemma strict_check_passes_or_raises_witness :
  outcome_of (run_check Sample.numpy (Sample.disk ∅) (CheckFile (PyStr "missing.tsv"))
                "variable" true true)
  = Return PyNone
  /\ (PyNone = PyBool true
      \/ exists p,
           CheckFile (PyStr "missing.tsv") = CheckFile (PyStr p)
           /\ isfile (Sample.disk ∅) (realpath (Sample.disk ∅) p) = false
           /\ true = true /\ PyNone = PyNone).
Proof.
  split; [reflexivity |].
  apply (strict_check_passes_or_raises Sample.numpy (Sample.disk ∅)
           (CheckFile (PyStr "missing.tsv")) "variable" true PyNone).
  reflexivity.
Defined.

(** X7: with [warn] unset no validator emits a warning, whatever it is given
    and however it ends, and with [warn] set none emits more than one. *)
Theorem quiet_check_never_warns (np : numpy_lib) (os : os_env) (c : check)
    (name : string) (warn error : bool) :
  fst (run_check np os c name false error) = []
  /\ length (fst (run_check np os c name warn error)) <= 1.
Proof.
  split.
  - destruct (run_check_cases np os c name false error)
      as [Hv | (p & _ & _ & Hwarn & _)]; [| discriminate Hwarn].
    destruct (verdict_inv _ _ _ Hv) as [-> | [(w' & m & e & o & -> & _) | (e & m & ->)]];
      reflexivity.
  - destruct (run_check_cases np os c name warn error)
      as [Hv | (p & _ & _ & _ & ->)]; [| cbn; lia].
    destruct (verdict_inv _ _ _ Hv) as [-> | [(w' & m & e & o & -> & _) | (e & m & ->)]];
      unfold report; cbn; destruct warn; cbn; lia.
Qed.

(** ** What the validators accept *)

(** X1: [is_positive_integer] returns [True] on an integer, a boolean or an
    integral float exactly when it is above zero; otherwise it reports the
    value as not positive: a warning when [warn] is set, a [ValueError] when
    [error] is set, [False] when it is not. *)
Theorem is_positive_integer_sign (name : string) (warn error : bool) :
  (forall z : Z,
     is_positive_integer (PyInt z) name warn error
     = (if (0 <? z)%Z then py_ret (PyBool true)
        else report warn error (MsgNotPositive name (PyInt z))
               (MsgNotPositive name (PyInt z)) ValueError (PyBool false))
     /\ is_positive_integer (NpInt64 z) name warn error
        = (if (0 <? z)%Z then py_ret (PyBool true)
           else report warn error (MsgNotPositive name (NpInt64 z))
                  (MsgNotPositive name (NpInt64 z)) ValueError (PyBool false)))
  /\ (forall b : bool,
        is_positive_integer (PyBool b) name warn error
        = (if b then py_ret (PyBool true)
           else report warn error (MsgNotPositive name (PyBool b))
                  (MsgNotPositive name (PyBool b)) ValueError (PyBool false)))
  /\ (forall f : float,
        fraction_is_zero f ->
        is_positive_integer (PyFloat f) name warn error
        = (if (0 <? f)%float then py_ret (PyBool true)
           else report warn error (MsgNotPositive name (PyFloat f))
                  (MsgNotPositive name (PyFloat f)) ValueError (PyBool false))).
Proof.
  assert (Hsign : forall (x : PyValue) (b : bool),
             is_integer x name warn error = py_ret (PyBool true) ->
             greater_than_zero x = py_ret b ->
             is_positive_integer x name warn error
             = (if b then py_ret (PyBool true)
                else report warn error (MsgNotPositive name x)
                       (MsgNotPositive name x) ValueError (PyBool false))).
  { intros x [] Hint Hpos.
    - now apply is_positive_integer_positive.
    - now apply is_positive_integer_not_positive. }
  split; [| split].
  - intros z. split; apply Hsign; reflexivity.
  - intros b. apply Hsign; reflexivity.
  - intros f Hf. apply Hsign; [| reflexivity].
    apply (is_integer_integral (PyFloat f) f); [reflexivity |].
    apply float_is_integer_iff, Hf.
Qed.

Lemma is_positive_integer_sign_witness :
  fraction_is_zero (-2)%float
  /\ is_positive_integer (PyFloat (-2)) "variable" true false
     = ([MsgNotPositive "variable" (PyFloat (-2))], Return (PyBool false)).
Proof.
  assert (H2 : fraction_is_zero (-2)%float).
  { apply float_is_integer_iff. reflexivity. }
  split; [exact H2 |].
  exact (proj2 (proj2 (is_positive_integer_sign "variable" true false)) (-2)%float H2).
Defined.

(** X2: when the integer check of [is_positive_integer] does not pass, the
    call ends exactly as [is_integer] did, with that check's warning and
    exception and no second report, and it does not return [True]. *)
Theorem is_positive_integer_reports_once (x : PyValue) (name : string)
    (warn error : bool) :
  is_integer x name warn error <> py_ret (PyBool true) ->
  is_positive_integer x name warn error = is_integer x name warn error
  /\ outcome_of (is_positive_integer x name warn error) <> Return (PyBool true).
Proof.
  intros Hfail.
  rewrite (is_positive_integer_after_failure x name warn error Hfail).
  split; [reflexivity |].
  destruct (is_integer_cases x name warn error) as [H | [(m & e & ->) | (m & ->)]].
  - contradiction.
  - unfold report. destruct error; discriminate.
  - discriminate.
Qed.

Lemma is_positive_integer_reports_once_witness :
  is_integer (PyFloat 2.5) "variable" true false <> py_ret (PyBool true)
  /\ is_positive_integer (PyFloat 2.5) "variable" true false
     = ([MsgNotInteger "variable" (PyFloat 2.5)], Return (PyBool false)).
Proof.
  assert (H : is_integer (PyFloat 2.5) "variable" true false <> py_ret (PyBool true))
    by discriminate.
  split; [exact H |].
  exact (proj1 (is_positive_integer_reports_once (PyFloat 2.5) "variable" true false H)).
Defined.

(** X3: [is_integer] returns [True] on a Python int or bool, a numpy integer
    and a float whose value is an integer, and on nothing else, whatever the
    flags are. *)
Theorem is_integer_true_iff (v : PyValue) (name : string) (warn error : bool) :
  outcome_of (is_integer v name warn error) = Return (PyBool true)
  <-> isinstance_int v = true
      \/ (exists z, v = NpInt64 z)
      \/ (exists f, float_value v = Some f /\ fraction_is_zero f).
Proof.
  split.
  - intros Hret. destruct (non_numeric v) eqn:Hnum.
    + rewrite is_integer_wrong_type in Hret by exact Hnum.
      destruct error; discriminate Hret.
    + assert (Hfloat : forall f,
                 float_value v = Some f -> float_is_integer f = true).
      { intros f Hv. destruct (float_is_integer f) eqn:Hf; [reflexivity |].
        rewrite (is_integer_not_integral v f) in Hret by assumption.
        destruct error; discriminate Hret. }
      destruct v as [| b | z | f | re im | s | l | z | f | a | s | d];
        try discriminate Hnum; eauto.
      * right; right. exists f. split; [reflexivity |].
        apply float_is_integer_iff, Hfloat. reflexivity.
      * discriminate Hret.
      * right; right. exists f. split; [reflexivity |].
        apply float_is_integer_iff, Hfloat. reflexivity.
  - intros [Hint | [[z ->] | (f & Hv & Hf)]].
    + destruct v; try discriminate Hint; reflexivity.
    + reflexivity.
    + rewrite (is_integer_integral v f); [reflexivity | exact Hv |].
      apply float_is_integer_iff, Hf.
Qed.

(** X4: with both flags unset, [is_integer] and [is_positive_integer] return
    a boolean, without a warning, on every value that is not a complex
    number; on a complex number both raise [AttributeError], whatever the
    flags are. *)
Theorem is_integer_default_policy (name : string) :
  (forall v : PyValue,
     type_of v <> TComplex ->
     (exists b, is_integer v name false false = py_ret (PyBool b))
     /\ (exists b, is_positive_integer v name false false = py_ret (PyBool b)))
  /\ (forall (re im : float) (warn error : bool),
        is_integer (PyComplex re im) name warn error
        = ([], Raise AttributeError
                 (MsgBuiltin "complex object has no attribute is_integer"))
        /\ is_positive_integer (PyComplex re im) name warn error
           = ([], Raise AttributeError
                    (MsgBuiltin "complex object has no attribute is_integer"))).
Proof.
  split; [| intros re im warn error; split; reflexivity].
  intros v Hv.
  assert (Hint : exists b, is_integer v name false false = py_ret (PyBool b)).
  { destruct (non_numeric v) eqn:Hnum.
    - exists false. now rewrite is_integer_wrong_type.
    - assert (Hfloat : forall f,
                 float_value v = Some f ->
                 exists b, is_integer v name false false = py_ret (PyBool b)).
      { intros f Hf. destruct (float_is_integer f) eqn:Hfi.
        - exists true. now apply (is_integer_integral v f).
        - exists false. now rewrite (is_integer_not_integral v f). }
      destruct v as [| b | z | f | re im | s | l | z | f | a | s | d];
        try discriminate Hnum; try (exists true; reflexivity);
        try (apply (Hfloat f); reflexivity).
      exfalso. apply Hv. reflexivity. }
  split; [exact Hint |].
  destruct Hint as [[] Hint].
  - destruct (greater_than_zero_accepted v name false false Hint) as [[] Hpos].
    + exists true. now apply is_positive_integer_positive.
    + exists false. now rewrite is_positive_integer_not_positive.
  - exists false. rewrite is_positive_integer_after_failure; [exact Hint |].
    rewrite Hint. discriminate.
Qed.

Lemma is_integer_default_policy_witness :
  type_of (PyStr "3") <> TComplex
  /\ is_integer (PyStr "3") "variable" false false = py_ret (PyBool false)
  /\ exists b, is_positive_integer (PyStr "3") "variable" false false = py_ret (PyBool b).
Proof.
  split; [discriminate | split; [reflexivity |]].
  apply (proj1 (is_integer_default_policy "variable") (PyStr "3")). discriminate.
Defined.

(** X8: [is_file] returns [True] exactly on a string whose resolved path is
    an existing regular file, whatever the flags are. *)
Theorem is_file_true_iff (os : os_env) (target : PyValue) (name : string)
    (warn error : bool) :
  outcome_of (is_file os target name warn error) = Return (PyBool true)
  <-> exists p, target = PyStr p /\ isfile os (realpath os p) = true.
Proof.
  split.
  - intros Hret.
    destruct (type_of target) eqn:Ht;
      try (rewrite is_file_wrong_type in Hret by congruence;
           destruct error; discriminate Hret).
    destruct target; try discriminate Ht. exists s. split; [reflexivity |].
    destruct (isfile os (realpath os s)) eqn:Hfile; [reflexivity |].
    destruct warn.
    + rewrite is_file_missing_warn in Hret by exact Hfile. discriminate Hret.
    + rewrite is_file_missing_raise in Hret by exact Hfile. discriminate Hret.
  - intros (p & -> & Hfile). unfold is_file. rewrite Hfile. reflexivity.
Qed.

(** X9: [is_1darray] returns [True] exactly on a series, on an array of one
    axis and on a list that [np.array] turns into an array of one axis; a
    dataframe or an array without axis does not pass. *)
Theorem is_1darray_true_iff (np : numpy_lib) (v : PyValue) (name : string)
    (warn error : bool) :
  outcome_of (is_1darray np v name warn error) = Return (PyBool true)
  <-> (exists s, v = PySeries s)
      \/ (exists a, v = PyNdarray a /\ length (shape a) = 1)
      \/ (exists l, v = PyList l /\ np_array_ndim np l = Return 1).
Proof.
  split.
  - intros Hret.
    destruct v;
      try (rewrite is_1darray_wrong_type in Hret by discriminate;
           destruct error; discriminate Hret);
      [right; right; exists l | right; left; exists a | left; eauto];
      (split; [reflexivity |]).
    + unfold is_1darray in Hret. cbn [type_of ndim_of] in Hret.
      destruct (np_array_ndim np l) as [ndim | e m]; [| discriminate Hret].
      change ([], Return ndim) with (py_ret (A := nat) ndim) in Hret.
      rewrite py_bind_ret in Hret.
      destruct (Nat.eqb_spec ndim 1) as [Heq | Hne]; [rewrite Heq; reflexivity |].
      rewrite report_failure in Hret. destruct error; discriminate Hret.
    + unfold is_1darray in Hret. cbn [type_of ndim_of] in Hret.
      rewrite py_bind_ret in Hret.
      destruct (Nat.eqb_spec (length (shape a)) 1) as [Heq | Hne]; [exact Heq |].
      rewrite report_failure in Hret. destruct error; discriminate Hret.
  - intros [[s ->] | [(a & -> & Ha) | (l & -> & Hl)]].
    + reflexivity.
    + unfold is_1darray. cbn [type_of ndim_of]. rewrite py_bind_ret, Ha. reflexivity.
    + unfold is_1darray. cbn [type_of ndim_of]. rewrite Hl. reflexivity.
Qed.

Example is_1darray_dataframe :
  is_1darray Sample.numpy
    (PyDataFrame {| df_index := [LStr "g"]; df_columns := [LStr "s"]; df_values := [[1%float]] |})
    "variable" true true
  = ([MsgNotArray "variable" "DataFrame"], Raise TypeError (MsgNotArray "variable" "DataFrame")).
Proof. reflexivity. Qed.

(** ** [have_same_index] as a relation *)

Lemma have_same_index_true_iff (a b : PyValue) (tn sn : string) (warn error : bool) :
  outcome_of (have_same_index a b tn sn warn error) = Return (PyBool true)
  <-> exists ia ib,
        index_of a = py_ret ia /\ index_of b = py_ret ib
        /\ label_set ia = label_set ib.
Proof.
  split.
  - intros Hret.
    destruct (isinstance_series_dataframe a) eqn:Ha.
    + destruct (isinstance_series_dataframe b) eqn:Hb.
      * destruct (labelled_index_of a Ha) as [ia Hia].
        destruct (labelled_index_of b Hb) as [ib Hib].
        exists ia, ib. repeat split; try assumption.
        rewrite (have_same_index_labelled a b ia ib) in Hret by assumption.
        destruct (bool_decide_reflect (label_set ia = label_set ib)); [assumption |].
        destruct error; discriminate Hret.
      * rewrite have_same_index_second_invalid in Hret by assumption.
        destruct error; discriminate Hret.
    + rewrite have_same_index_first_invalid in Hret by assumption.
      destruct error; discriminate Hret.
  - intros (ia & ib & Hia & Hib & Heq).
    rewrite (have_same_index_labelled a b ia ib) by assumption.
    rewrite bool_decide_eq_true_2 by exact Heq. reflexivity.
Qed.

(** X10: returning [True] is an equivalence between series and dataframes:
    [have_same_index] returns [True] on an input and itself, returns [True]
    on [b] and [a] when it does on [a] and [b], and on [a] and [c] when it
    does on [a] and [b] and on [b] and [c], whatever names and flags each
    call is given. *)
Theorem have_same_index_equivalence :
  (forall a index tn sn warn error,
     index_of a = py_ret index ->
     outcome_of (have_same_index a a tn sn warn error) = Return (PyBool true))
  /\ (forall a b tn sn warn error tn' sn' warn' error',
        outcome_of (have_same_index a b tn sn warn error) = Return (PyBool true) ->
        outcome_of (have_same_index b a tn' sn' warn' error') = Return (PyBool true))
  /\ (forall a b c tn sn warn error tn' sn' warn' error' tn'' sn'' warn'' error'',
        outcome_of (have_same_index a b tn sn warn error) = Return (PyBool true) ->
        outcome_of (have_same_index b c tn' sn' warn' error') = Return (PyBool true) ->
        outcome_of (have_same_index a c tn'' sn'' warn'' error'') = Return (PyBool true)).
Proof.
  split; [| split].
  - intros a index tn sn warn error Ha.
    apply have_same_index_true_iff. exists index, index. auto.
  - intros a b tn sn warn error tn' sn' warn' error' Hab.
    apply have_same_index_true_iff in Hab. destruct Hab as (ia & ib & Hia & Hib & Heq).
    apply have_same_index_true_iff. exists ib, ia. auto.
  - intros a b c tn sn warn error tn' sn' warn' error' tn'' sn'' warn'' error'' Hab Hbc.
    apply have_same_index_true_iff in Hab. destruct Hab as (ia & ib & Hia & Hib & Heq).
    apply have_same_index_true_iff in Hbc. destruct Hbc as (ib' & ic & Hib' & Hic & Heq').
    apply have_same_index_true_iff. exists ia, ic. repeat split; try assumption.
    rewrite Hib in Hib'. injection Hib' as <-. congruence.
Qed.

Lemma have_same_index_equivalence_witness :
  outcome_of (have_same_index (labelled ["x"; "y"]) (labelled ["y"; "x"; "x"])
                "variable 1" "variable 2" false false)
  = Return (PyBool true)
  /\ outcome_of (have_same_index (labelled ["y"; "x"; "x"]) (labelled ["x"; "y"])
                   "b" "a" true true)
     = Return (PyBool true).
Proof.
  assert (H : outcome_of (have_same_index (labelled ["x"; "y"]) (labelled ["y"; "x"; "x"])
                            "variable 1" "variable 2" false false)
              = Return (PyBool true)) by (vm_compute; reflexivity).
  split; [exact H |].
  exact (proj1 (proj2 have_same_index_equivalence) _ _ _ _ _ _ "b" "a" true true H).
Defined.

(** ** [read_series] on the other targets *)

Lemma read_series_existing (os : os_env) (p : string) (warn error : bool) :
  isfile os (realpath os p) = true ->
  read_series os (PyStr p) warn error = pd_read_csv os (realpath os p).
Proof.
  intros Hfile. unfold read_series, is_file. cbn [type_of]. rewrite Hfile.
  py_run. cbn [realpath_of]. rewrite py_bind_ret. reflexivity.
Qed.

(** X11: on a string path [read_series] does not look at its flags: when the
    resolved path is an existing file the call is [pd.read_csv] of that path,
    warnings and exceptions of the parser included, and in every case the
    call with any flags ends as the call with both flags unset.  A series is
    returned as it is. *)
Theorem read_series_string_path (os : os_env) (p : string) (warn error : bool) :
  read_series os (PyStr p) warn error = read_series os (PyStr p) false false
  /\ (isfile os (realpath os p) = true ->
      read_series os (PyStr p) warn error = pd_read_csv os (realpath os p))
  /\ (forall s, read_series os (PySeries s) warn error = py_ret (PySeries s)).
Proof.
  split; [| split].
  - destruct (isfile os (realpath os p)) eqn:Hfile.
    + now rewrite !read_series_existing.
    + now rewrite !read_series_missing.
  - apply read_series_existing.
  - reflexivity.
Qed.

Lemma read_series_string_path_witness :
  isfile (Sample.disk {[ "tpm.tsv" := labelled ["g1"; "g2"] ]})
         (realpath (Sample.disk {[ "tpm.tsv" := labelled ["g1"; "g2"] ]}) "tpm.tsv")
  = true
  /\ read_series (Sample.disk {[ "tpm.tsv" := labelled ["g1"; "g2"] ]})
       (PyStr "tpm.tsv") true true
     = py_ret (labelled ["g1"; "g2"]).
Proof.
  split; [reflexivity |].
  exact (proj1 (proj2 (read_series_string_path
                         (Sample.disk {[ "tpm.tsv" := labelled ["g1"; "g2"] ]})
                         "tpm.tsv" true true))
           eq_refl).
Defined.

(** X12: on a target that is neither a series nor a string, [read_series]
    reads nothing: it warns that the target does not exist when [warn] is
    set, raises [FileNotFoundError] when [error] is set, and returns [None]
    when it is not. *)
Theorem read_series_other_target (os : os_env) (target : PyValue)
    (warn error : bool) :
  type_of target <> TSeries -> type_of target <> TStr ->
  read_series os target warn error
  = report warn error (MsgIgnoreIt (MsgNotExist target)) (MsgNotExist target)
      FileNotFoundError PyNone.
Proof. intros Hs Hp. now apply read_series_not_a_path. Qed.

Lemma read_series_other_target_witness :
  type_of PyNone <> TSeries /\ type_of PyNone <> TStr
  /\ read_series (Sample.disk ∅) PyNone true true
     = ([MsgIgnoreIt (MsgNotExist PyNone)],
        Raise FileNotFoundError (MsgNotExist PyNone)).
Proof.
  split; [discriminate | split; [discriminate |]].
  apply (read_series_other_target (Sample.disk ∅) PyNone true true); discriminate.
Defined.

(** ** [reduce_data] on any axis *)

Lemma tuple_position_lt (len : nat) (i : Z) (k : nat) :
  tuple_position len i = Some k -> k < len.
Proof.
  unfold tuple_position.
  destruct (Z.leb_spec 0 i), (Z.ltb_spec i (Z.of_nat len)); cbn [andb];
    try (intros [= <-]; lia).
  all: destruct (Z.leb_spec (- Z.of_nat len) i), (Z.ltb_spec i 0); cbn [andb];
    try discriminate; intros [= <-]; lia.
Qed.

Lemma tuple_position_none (len : nat) (i : Z) :
  (Z.of_nat len <= i \/ i < - Z.of_nat len)%Z -> tuple_position len i = None.
Proof.
  intros Hout. unfold tuple_position.
  destruct (Z.leb_spec 0 i), (Z.ltb_spec i (Z.of_nat len)); cbn [andb]; try lia.
  all: destruct (Z.leb_spec (- Z.of_nat len) i), (Z.ltb_spec i 0); cbn [andb];
    try reflexivity; lia.
Qed.

Lemma product_app (l1 l2 : list nat) :
  product (l1 ++ l2) = product l1 * product l2.
Proof.
  unfold product. induction l1 as [| x l1 IH]; cbn; [lia |].
  rewrite IH. lia.
Qed.

Lemma product_split (s : list nat) (k : nat) :
  k < length s ->
  product s = product (firstn k s) * (nth k s 0 * product (skipn (S k) s)).
Proof.
  intros Hk.
  rewrite <- (firstn_skipn k s) at 1. rewrite product_app. f_equal.
  destruct (skipn k s) as [| x rest] eqn:Hskip.
  - apply (f_equal (@length nat)) in Hskip. rewrite length_skipn in Hskip.
    cbn in Hskip. lia.
  - assert (Hnth : nth k s 0 = x).
    { rewrite <- (firstn_skipn k s) at 1.
      rewrite app_nth2 by (rewrite length_firstn; lia).
      rewrite length_firstn, Nat.min_l, Nat.sub_diag, Hskip by lia. reflexivity. }
    assert (Hrest : skipn (S k) s = rest).
    { replace (S k) with (1 + k) by lia.
      rewrite <- skipn_skipn, Hskip. reflexivity. }
    rewrite Hnth, Hrest. reflexivity.
Qed.

Lemma length_slice_blocks (outer blk hi : nat) (d : list float) :
  length d = outer * blk -> hi <= blk ->
  length (slice_blocks outer blk 0 hi d) = outer * hi.
Proof.
  revert d. induction outer as [| outer IH]; intros d Hlen Hhi; [reflexivity |].
  cbn [slice_blocks]. rewrite length_app, IH.
  - assert (Hblk : blk <= length d) by nia.
    rewrite Nat.sub_0_r, skipn_O, !length_firstn.
    rewrite (Nat.min_l blk) by exact Hblk. rewrite Nat.min_l by exact Hhi. lia.
  - rewrite length_skipn. nia.
  - exact Hhi.
Qed.

(** X13: on an array whose length along the axis is even, [reduce_data]
    returns an array with half that length along the axis and the other
    lengths unchanged, holding half of the elements. *)
Theorem reduce_data_halves (target : ndarray) (axis : Z) (k : nat) :
  wf_ndarray target ->
  tuple_position (length (shape target)) axis = Some k ->
  Nat.even (nth k (shape target) 0) = true ->
  exists r,
    reduce_data target axis = py_ret r
    /\ shape r = <[k := nth k (shape target) 0 / 2]> (shape target)
    /\ wf_ndarray r
    /\ 2 * length (data r) = length (data target).
Proof.
  intros Hwf Haxis Heven.
  pose proof (tuple_position_lt _ _ _ Haxis) as Hk.
  destruct (even_mod_2 _ Heven) as [_ Hhalf].
  pose proof (product_split (shape target) k Hk) as Hprod.
  set (n := nth k (shape target) 0) in *.
  set (outer := product (firstn k (shape target))) in *.
  set (inner := product (skipn (S k) (shape target))) in *.
  unfold wf_ndarray in Hwf. rewrite Hprod in Hwf.
  assert (Hlen : length (data (slice_axis target k 0 (n / 2)))
                 = outer * (n / 2 * inner)).
  { unfold slice_axis. cbn [data]. fold n outer inner.
    apply length_slice_blocks; [exact Hwf |]. nia. }
  exists (slice_axis target k 0 (n / 2)).
  split; [now apply reduce_data_even_length |].
  split; [| split].
  - unfold slice_axis. cbn [shape]. rewrite Nat.sub_0_r.
    symmetry. apply insert_take_drop. exact Hk.
  - unfold wf_ndarray. rewrite Hlen. unfold slice_axis. cbn [shape].
    rewrite product_app, Nat.sub_0_r. cbn [product fold_right]. reflexivity.
  - rewrite Hlen, Hwf. nia.
Qed.

Lemma reduce_data_halves_witness :
  wf_ndarray {| shape := [2; 4]; data := [1; 2; 3; 4; 5; 6; 7; 8]%float |}
  /\ tuple_position 2 (-1) = Some 1
  /\ exists r,
       reduce_data {| shape := [2; 4]; data := [1; 2; 3; 4; 5; 6; 7; 8]%float |} (-1)
       = py_ret r
       /\ shape r = <[1 := 4 / 2]> [2; 4]
       /\ wf_ndarray r
       /\ 2 * length (data r) = 8.
Proof.
  split; [reflexivity | split; [reflexivity |]].
  apply (reduce_data_halves
           {| shape := [2; 4]; data := [1; 2; 3; 4; 5; 6; 7; 8]%float |} (-1) 1);
    reflexivity.
Defined.

(** X14: on an axis the array has, [reduce_data] returns a value exactly
    when the length along that axis is even. *)
Theorem reduce_data_returns_iff (target : ndarray) (axis : Z) (k : nat) :
  tuple_position (length (shape target)) axis = Some k ->
  (exists r, outcome_of (reduce_data target axis) = Return r)
  <-> Nat.even (nth k (shape target) 0) = true.
Proof.
  intros Haxis. split.
  - intros [r Hr]. destruct (Nat.even (nth k (shape target) 0)) eqn:Heven;
      [reflexivity |].
    assert (Hodd : Nat.odd (nth k (shape target) 0) = true).
    { unfold Nat.odd. rewrite Heven. reflexivity. }
    unfold reduce_data, np_split, tuple_getitem in Hr.
    rewrite Haxis, py_bind_ret in Hr. cbn [Nat.eqb] in Hr.
    rewrite (odd_mod_2 _ Hodd) in Hr. discriminate Hr.
  - intros Heven. eexists.
    rewrite (reduce_data_even_length target axis k) by assumption.
    reflexivity.
Qed.

Lemma reduce_data_returns_iff_witness :
  tuple_position (length (shape (vector [1; 2; 3; 4]%float))) 0 = Some 0
  /\ ((exists r, outcome_of (reduce_data (vector [1; 2; 3; 4]%float) 0) = Return r)
      <-> Nat.even (nth 0 (shape (vector [1; 2; 3; 4]%float)) 0) = true).
Proof.
  split; [reflexivity |].
  apply (reduce_data_returns_iff (vector [1; 2; 3; 4]%float) 0 0). reflexivity.
Defined.

(** X15: along the first axis, and when its length is even, [reduce_data]
    returns the first half of the elements in row-major order: the first
    half of the rows of a table. *)
Theorem reduce_data_first_axis (d : list float) (n : nat) (rest : list nat) :
  length d = n * product rest ->
  Nat.even n = true ->
  reduce_data {| shape := n :: rest; data := d |} 0
  = py_ret {| shape := n / 2 :: rest; data := firstn (length d / 2) d |}.
Proof.
  intros Hlen Heven. destruct (even_mod_2 _ Heven) as [_ Hhalf].
  rewrite (reduce_data_even_length {| shape := n :: rest; data := d |} 0 0)
    by (reflexivity || exact Heven).
  unfold slice_axis. cbn [shape data nth].
  change (skipn 1 (n :: rest)) with rest.
  change (firstn 0 (n :: rest)) with (@nil nat).
  change (product []) with 1.
  cbn [slice_blocks app].
  rewrite Nat.mul_0_l, !Nat.sub_0_r, app_nil_r, skipn_O.
  rewrite <- Hlen, firstn_all.
  replace (length d / 2) with (n / 2 * product rest); [reflexivity |].
  apply Nat.div_unique_exact; [lia | nia].
Qed.

Lemma reduce_data_first_axis_witness :
  length [1; 2; 3; 4; 5; 6; 7; 8]%float = 4 * product [2]
  /\ Nat.even 4 = true
  /\ reduce_data {| shape := [4; 2]; data := [1; 2; 3; 4; 5; 6; 7; 8]%float |} 0
     = py_ret {| shape := [2; 2]; data := [1; 2; 3; 4]%float |}.
Proof.
  split; [reflexivity | split; [reflexivity |]].
  apply (reduce_data_first_axis [1; 2; 3; 4; 5; 6; 7; 8]%float 4 [2]); reflexivity.
Defined.

(** X16: on an axis the array does not have, counted from the start or from
    the end, [reduce_data] raises [IndexError]; an array without axes has
    none. *)
Theorem reduce_data_axis_out_of_range (target : ndarray) (axis : Z) :
  (Z.of_nat (length (shape target)) <= axis
   \/ axis < - Z.of_nat (length (shape target)))%Z ->
  reduce_data target axis
  = ([], Raise IndexError (MsgBuiltin "tuple index out of range")).
Proof.
  intros Hout. unfold reduce_data, np_split, tuple_getitem.
  rewrite (tuple_position_none _ _ Hout). reflexivity.
Qed.

Lemma reduce_data_axis_out_of_range_witness :
  (Z.of_nat (length (shape (vector [1; 2]%float))) <= 1
   \/ 1 < - Z.of_nat (length (shape (vector [1; 2]%float))))%Z
  /\ reduce_data (vector [1; 2]%float) 1
     = ([], Raise IndexError (MsgBuiltin "tuple index out of range")).
Proof.
  assert (H : (Z.of_nat (length (shape (vector [1; 2]%float))) <= 1
               \/ 1 < - Z.of_nat (length (shape (vector [1; 2]%float))))%Z)
    by (left; cbn; lia).
  split; [exact H |].
  exact (reduce_data_axis_out_of_range (vector [1; 2]%float) 1 H).
Defined.

(** ** [augment_data] and [reduce_data] together *)

(** X17: [reduce_data(augment_data(v))] is the flattened [v] itself when line
    42 holds of it (the data look log-transformed already), and
    [log2(v + 1)] when it does not. *)
Theorem reduce_augment_value (np : numpy_lib) (v : ndarray) (name : string)
    (warn skip : bool) :
  already_log_transformed (data v) = py_ret skip ->
  outcome_of (reduce_augment np v name warn)
  = Return (vector (if skip then data v else log2_plus_one np (data v))).
Proof.
  intros Hskip. unfold reduce_augment.
  pose proof (augment_data_eq np v name warn skip Hskip) as Haug.
  set (t := if skip then data v else log2_plus_one np (data v)) in *.
  rewrite (outcome_of_bind_return _ (np_concatenate t (negate t)))
    by (rewrite Haug; reflexivity).
  unfold np_concatenate. rewrite length_negate.
  rewrite reduce_data_flat by (rewrite length_app, length_negate; reflexivity).
  rewrite take_app_length. reflexivity.
Qed.

Lemma reduce_augment_value_witness :
  already_log_transformed (data (vector [-3; 50]%float)) = py_ret true
  /\ outcome_of (reduce_augment Sample.numpy (vector [-3; 50]%float) "variable" true)
     = Return (vector [-3; 50]%float).
Proof.
  split; [reflexivity |].
  apply (reduce_augment_value Sample.numpy (vector [-3; 50]%float) "variable" true true).
  reflexivity.
Defined.

(** X18: the array [augment_data] returns, or the exception it raises, does
    not depend on [warn], on the name or on the mean: two calls on the same
    data with the same logarithm end alike. *)
Theorem augment_data_result_ignores_warn (np np' : numpy_lib) (v : ndarray)
    (name name' : string) (warn warn' : bool) :
  (forall x, libm_log2 np x = libm_log2 np' x) ->
  outcome_of (augment_data np v name warn)
  = outcome_of (augment_data np' v name' warn').
Proof.
  intros Hlog. destruct (data v) as [| x xs] eqn:Hv.
  - now rewrite !augment_data_empty.
  - destruct (already_log_transformed_nonempty (data v)) as [skip Hskip];
      [rewrite Hv; discriminate |].
    rewrite (augment_data_eq np v name warn skip Hskip).
    rewrite (augment_data_eq np' v name' warn' skip Hskip).
    cbn [outcome_of snd].
    replace (log2_plus_one np' (data v)) with (log2_plus_one np (data v));
      [reflexivity |].
    unfold log2_plus_one, np_log2. apply map_ext. intros y. now rewrite Hlog.
Qed.

Lemma augment_data_result_ignores_warn_witness :
  (forall x,
     libm_log2 Sample.numpy x
     = libm_log2 {| libm_log2 := Sample.coarse_log2; np_mean := fun _ => 0%float;
                    np_array_ndim := Sample.list_ndim |} x)
  /\ outcome_of (augment_data Sample.numpy (vector [3; 255]%float) "a" true)
     = outcome_of
         (augment_data {| libm_log2 := Sample.coarse_log2; np_mean := fun _ => 0%float;
                          np_array_ndim := Sample.list_ndim |}
            (vector [3; 255]%float) "b" false).
Proof.
  split; [reflexivity |].
  apply (augment_data_result_ignores_warn Sample.numpy
           {| libm_log2 := Sample.coarse_log2; np_mean := fun _ => 0%float;
              np_array_ndim := Sample.list_ndim |}
           (vector [3; 255]%float) "a" "b" true false).
  reflexivity.
Defined.

(** ** [get_random_state] *)

(** X19: [get_random_state] returns the generator seeded with [z] exactly
    when the seed is a Python int or bool of value [z] between 0 and
    [2^32 - 1]; a seed that is not a Python int (None, a float, a numpy
    integer) gets the unseeded generator and never an error. *)
Theorem get_random_state_seeded (seed : PyValue) :
  (forall z : Z,
     get_random_state seed = py_ret (RandomState z)
     <-> isinstance_int seed = true /\ int_of seed = z /\ (0 <= z < 2 ^ 32)%Z)
  /\ (get_random_state seed = py_ret default_rng <-> isinstance_int seed = false).
Proof.
  unfold get_random_state, np_random_RandomState. split.
  - intros z. destruct (isinstance_int seed).
    + destruct (Z.leb_spec 0 (int_of seed)), (Z.ltb_spec (int_of seed) (2 ^ 32));
        cbn [andb]; split.
      all: try (intros [= <-]; repeat split; lia).
      all: try discriminate.
      all: intros (_ & <- & Hz); try lia. reflexivity.
    + split; [discriminate | intros [H _]; discriminate H].
  - destruct (isinstance_int seed).
    + split; [| discriminate].
      destruct ((0 <=? int_of seed)%Z && (int_of seed <? 2 ^ 32)%Z); discriminate.
    + split; reflexivity.
Qed.

Example get_random_state_seeds :
  get_random_state (PyInt 42) = py_ret (RandomState 42)
  /\ get_random_state (PyBool true) = py_ret (RandomState 1)
  /\ get_random_state (NpInt64 42) = py_ret default_rng
  /\ get_random_state PyNone = py_ret default_rng
  /\ get_random_state (PyInt (-1))
     = ([], Raise ValueError (MsgBuiltin "Seed must be between 0 and 2**32 - 1")).
Proof. repeat split. Qed.

(** ** Which branch [augment_data] takes *)

Lemma is_nan_Prim2SF_nan (x : float) : is_nan x = true -> Prim2SF x = S754_nan.
Proof.
  rewrite is_nan_Prim2SF. destruct (Prim2SF x); try discriminate. reflexivity.
Qed.

Lemma leb_nan_l (x y : float) : is_nan x = true -> (x <=? y)%float = false.
Proof.
  intros Hx. rewrite leb_spec, (is_nan_Prim2SF_nan x Hx). reflexivity.
Qed.

Lemma ltb_nan_l (x y : float) : is_nan x = true -> (x <? y)%float = false.
Proof.
  intros Hx. rewrite ltb_spec, (is_nan_Prim2SF_nan x Hx). reflexivity.
Qed.

(** A number that is at least zero is not below zero. *)
Lemma leb_zero_not_ltb (x : float) :
  (0 <=? x)%float = true -> (x <? 0)%float = false.
Proof.
  rewrite leb_spec, ltb_spec.
  change (Prim2SF 0) with (S754_zero false).
  destruct (Prim2SF x) as [s | [] | | [] m e]; cbn; congruence.
Qed.

(** The maximum of an array that holds a NaN is a NaN. *)
Lemma fold_maximum_nan (xs : list float) (acc : float) :
  is_nan acc = true \/ (exists x, In x xs /\ is_nan x = true) ->
  is_nan (fold_left np_maximum xs acc) = true.
Proof.
  revert acc. induction xs as [| b xs IH]; intros acc [Hacc | (x & Hin & Hx)].
  - exact Hacc.
  - destruct Hin.
  - cbn [fold_left]. apply IH. left. unfold np_maximum.
    rewrite Hacc, orb_true_r. exact Hacc.
  - cbn [fold_left]. apply IH. destruct Hin as [-> | Hin]; [| right; eauto].
    left. unfold np_maximum. destruct (is_nan acc) eqn:Hacc.
    + rewrite orb_true_r. exact Hacc.
    + rewrite (leb_nan_l x acc Hx). exact Hx.
Qed.

(** The minimum of an array is one of its elements. *)
Lemma fold_minimum_in (xs : list float) (acc : float) :
  In (fold_left np_minimum xs acc) (acc :: xs).
Proof.
  revert acc. induction xs as [| b xs IH]; intros acc; [left; reflexivity |].
  cbn [fold_left]. specialize (IH (np_minimum acc b)).
  destruct IH as [Heq | Hin].
  - rewrite <- Heq. unfold np_minimum.
    destruct ((acc <=? b)%float || is_nan acc); [left | right; left]; reflexivity.
  - right; right. exact Hin.
Qed.

(** X20: data without a negative element are never taken for log-transformed
    data: on a non-empty array whose elements are all at least zero,
    [augment_data] returns [log2(v + 1)] followed by its negation, whatever
    the maximum and the mean are. *)
Theorem augment_data_nonnegative (np : numpy_lib) (v : ndarray) (name : string)
    (warn : bool) :
  data v <> [] ->
  (forall x, In x (data v) -> (0 <=? x)%float = true) ->
  already_log_transformed (data v) = py_ret false
  /\ outcome_of (augment_data np v name warn)
     = Return (np_concatenate (log2_plus_one np (data v))
                 (negate (log2_plus_one np (data v)))).
Proof.
  intros Hne Hpos.
  assert (Hskip : already_log_transformed (data v) = py_ret false).
  { destruct (data v) as [| x xs]; [contradiction |].
    unfold already_log_transformed, np_max, np_min. rewrite py_bind_ret.
    destruct (fold_left np_maximum xs x <? 100)%float; [| reflexivity].
    rewrite py_bind_ret.
    rewrite leb_zero_not_ltb; [reflexivity |].
    apply Hpos, fold_minimum_in. }
  split; [exact Hskip |].
  rewrite (augment_data_eq np v name warn false Hskip). reflexivity.
Qed.

Lemma augment_data_nonnegative_witness :
  data (vector [0; 3; 7]%float) <> []
  /\ (forall x, In x (data (vector [0; 3; 7]%float)) -> (0 <=? x)%float = true)
  /\ already_log_transformed (data (vector [0; 3; 7]%float)) = py_ret false
  /\ outcome_of (augment_data Sample.numpy (vector [0; 3; 7]%float) "variable" false)
     = Return (np_concatenate
                 (log2_plus_one Sample.numpy (data (vector [0; 3; 7]%float)))
                 (negate (log2_plus_one Sample.numpy (data (vector [0; 3; 7]%float))))).
Proof.
  assert (Hne : data (vector [0; 3; 7]%float) <> []) by discriminate.
  assert (Hpos : forall x, In x (data (vector [0; 3; 7]%float)) -> (0 <=? x)%float = true).
  { intros x [<- | [<- | [<- | []]]]; reflexivity. }
  split; [exact Hne | split; [exact Hpos |]].
  exact (augment_data_nonnegative Sample.numpy (vector [0; 3; 7]%float)
           "variable" false Hne Hpos).
Defined.

Example augment_data_counts :
  augment_data Sample.numpy (vector [0; 3; 7]%float) "variable" true
  = py_ret {| shape := [6]; data := [0; 2; 3; -0; -2; -3]%float |}.
Proof. reflexivity. Qed.

(** X21: an array that holds a NaN always takes the log branch, since its
    maximum is a NaN and a NaN is below nothing: the test for data that are
    log-transformed already cannot hold of it. *)
Theorem augment_data_nan_input (np : numpy_lib) (v : ndarray) (name : string)
    (warn : bool) (x : float) :
  In x (data v) -> is_nan x = true ->
  already_log_transformed (data v) = py_ret false
  /\ outcome_of (augment_data np v name warn)
     = Return (np_concatenate (log2_plus_one np (data v))
                 (negate (log2_plus_one np (data v)))).
Proof.
  intros Hin Hx.
  assert (Hskip : already_log_transformed (data v) = py_ret false).
  { destruct (data v) as [| y ys]; [destruct Hin |].
    unfold already_log_transformed, np_max. rewrite py_bind_ret.
    rewrite ltb_nan_l; [reflexivity |].
    apply fold_maximum_nan. destruct Hin as [-> | Hin]; [left; exact Hx |].
    right. eauto. }
  split; [exact Hskip |].
  rewrite (augment_data_eq np v name warn false Hskip). reflexivity.
Qed.

Lemma augment_data_nan_input_witness :
  In nan (data (vector [-3; nan; 5]%float)) /\ is_nan nan = true
  /\ already_log_transformed (data (vector [-3; nan; 5]%float)) = py_ret false.
Proof.
  assert (Hin : In nan (data (vector [-3; nan; 5]%float))) by (right; left; reflexivity).
  split; [exact Hin | split; [reflexivity |]].
  exact (proj1 (augment_data_nan_input Sample.numpy (vector [-3; nan; 5]%float)
                  "variable" false nan Hin eq_refl)).
Defined.
